(** * Knotify: the pusher registry and its URI codec

    A shallow embedding of [knotify/pusher.py]: the four pusher classes
    ([Webhook], [Telegram], [Wechat], [WirePusher]), the registry
    [all_pushers], [register_pusher] and [get_pusher].

    Conventions of the embedding.
    - A Python [str] is a [string]: the bytes of its UTF-8 encoding.  Every
      function below that inspects characters inspects ASCII characters only
      and copies every other byte, which is what the Python function does
      on well-formed text.  The two places where Python looks at a non-ASCII
      character, [str.lower] on a non-ASCII authority and the NFKC
      normalisation of [urllib.parse._checknetloc], are parameters of the
      model ([Stdlib]).  [unquote] is Python's on every string whose
      escapes decode to well-formed UTF-8; for other escapes Python puts the
      replacement character where the model keeps the bytes.
    - A call that may raise is a value of [result A]: [inl e] is the raised
      exception, [inr v] the returned value.  Only instances of Python's
      [Exception] are represented.
    - A [dict] whose order can be observed (keyword arguments, request
      bodies) is an insertion-ordered association list with distinct keys;
      the registry, whose order is never observed, is a [gmap].
    - [urllib.parse] is modelled from CPython 3.11 ([urlsplit], [parse_qsl],
      [unquote], [quote_plus], [urlencode]). *)

From Stdlib Require Import Ascii String List Bool NArith ZArith Lia.
From Stdlib Require Import DecimalString.
From stdpp Require Import base option gmap strings.

Import ListNotations.
Local Open Scope string_scope.
Local Open Scope list_scope.

(* stdpp never unfolds [String.append] under [simpl]; the proofs below
   compute with string literals, so let it unfold on a constructor. *)
#[local] Arguments String.append !s1 s2 : simpl nomatch.

(** ** Characters *)

Definition code (c : ascii) : N := N_of_ascii c.

Definition in_range (lo hi : N) (c : ascii) : bool :=
  ((lo <=? code c) && (code c <=? hi))%N.

Definition is_upper (c : ascii) : bool := in_range 65 90 c.
Definition is_lower (c : ascii) : bool := in_range 97 122 c.
Definition is_digit (c : ascii) : bool := in_range 48 57 c.

(** [c.isascii()] *)
Definition is_ascii (c : ascii) : bool := (code c <? 128)%N.

(** [c.isascii() and c.isalpha()] *)
Definition is_ascii_alpha (c : ascii) : bool := is_upper c || is_lower c.

(** [str.lower] on one character (ASCII letters only). *)
Definition lower_char (c : ascii) : ascii :=
  if is_upper c then ascii_of_N (code c + 32) else c.

(** ** Strings: the [str] methods the program uses *)

(** [c in s] *)
Fixpoint str_mem (c : ascii) (s : string) : bool :=
  match s with
  | EmptyString => false
  | String a s' => Ascii.eqb a c || str_mem c s'
  end.

Fixpoint str_all (p : ascii -> bool) (s : string) : bool :=
  match s with
  | EmptyString => true
  | String a s' => p a && str_all p s'
  end.

Fixpoint str_map (f : ascii -> ascii) (s : string) : string :=
  match s with
  | EmptyString => EmptyString
  | String a s' => String (f a) (str_map f s')
  end.

Fixpoint str_filter (p : ascii -> bool) (s : string) : string :=
  match s with
  | EmptyString => EmptyString
  | String a s' => if p a then String a (str_filter p s') else str_filter p s'
  end.

Fixpoint str_concat_map (f : ascii -> string) (s : string) : string :=
  match s with
  | EmptyString => EmptyString
  | String a s' => f a +:+ str_concat_map f s'
  end.

(** [s.lower()] on ASCII text: the other bytes are kept.  (On a string
    with a non-ASCII character see [str_lower] below.) *)
Definition lower (s : string) : string := str_map lower_char s.

(** The characters other than [c]: [str_filter (differs c) s] is
    [s.replace(c, '')]. *)
Definition differs (c : ascii) : ascii -> bool := fun a => negb (Ascii.eqb a c).

(** [s.replace(a, b)] for single characters. *)
Definition replace_char (a b : ascii) (s : string) : string :=
  str_map (fun c => if Ascii.eqb c a then b else c) s.

(** [s.lstrip(chars)], with [chars] given by its membership test. *)
Fixpoint lstrip (p : ascii -> bool) (s : string) : string :=
  match s with
  | EmptyString => EmptyString
  | String a s' => if p a then lstrip p s' else s
  end.

(** [s.partition(c)] when [c] occurs in [s]: the text before the first [c]
    and the text after it, that is [(s[:i], s[i+1:])] for [i = s.find(c)];
    [None] when [s.find(c)] is [-1]. *)
Fixpoint partition (c : ascii) (s : string) : option (string * string) :=
  match s with
  | EmptyString => None
  | String a s' =>
      if Ascii.eqb a c then Some (EmptyString, s')
      else match partition c s' with
           | Some (l, r) => Some (String a l, r)
           | None => None
           end
  end.

(** [s.rpartition(c)]: the same at the last occurrence of [c]. *)
Fixpoint rpartition (c : ascii) (s : string) : option (string * string) :=
  match s with
  | EmptyString => None
  | String a s' =>
      match rpartition c s' with
      | Some (l, r) => Some (String a l, r)
      | None => if Ascii.eqb a c then Some (EmptyString, s') else None
      end
  end.

(** [(s[:i], s[i:])] for the first index [i] whose character satisfies [p]
    ([i = len(s)] when there is none). *)
Fixpoint break_at (p : ascii -> bool) (s : string) : string * string :=
  match s with
  | EmptyString => (EmptyString, EmptyString)
  | String a s' =>
      if p a then (EmptyString, s)
      else let '(l, r) := break_at p s' in (String a l, r)
  end.

(** [s.split(c)]: never empty, [''.split(c) == ['']]. *)
Fixpoint split (c : ascii) (s : string) : list string :=
  match s with
  | EmptyString => [EmptyString]
  | String a s' =>
      if Ascii.eqb a c then EmptyString :: split c s'
      else match split c s' with
           | h :: t => String a h :: t
           | [] => [String a EmptyString]
           end
  end.

Fixpoint str_join (l : list string) : string :=
  match l with
  | [] => EmptyString
  | s :: l' => s +:+ str_join l'
  end.

(** ['&'.join(l)] and the like. *)
Fixpoint join (sep : string) (l : list string) : string :=
  match l with
  | [] => EmptyString
  | [s] => s
  | s :: l' => s +:+ sep +:+ join sep l'
  end.

Definition nonempty (s : string) : bool :=
  match s with EmptyString => false | _ => true end.

(** [s.startswith(p)] *)
Definition startswith (p s : string) : bool := String.prefix p s.

(** [tmpl.format(name=v)] for a template whose only replacement field is
    [{name}]: every occurrence of the field is replaced by [v].  [skip]
    counts the characters of a matched field still to be dropped. *)
Fixpoint replace_field (skip : nat) (field v s : string) : string :=
  match s with
  | EmptyString => EmptyString
  | String a s' =>
      match skip with
      | S k => replace_field k field v s'
      | O =>
          if String.prefix field s
          then v +:+ replace_field (String.length field - 1) field v s'
          else String a (replace_field 0 field v s')
      end
  end.

Definition format (tmpl name v : string) : string :=
  replace_field 0 ("{" +:+ name +:+ "}") v tmpl.

(** ** Exceptions and results *)

Inductive exn_class : Type :=
  | TypeError
  | ValueError
  | AttributeError
  | KnotifyException
  | OtherException (name : string).

(** An exception instance: its class and its single argument, which is a
    message or, as in [KnotifyException(e)], another exception. *)
Inductive exn : Type :=
  | Exc (cls : exn_class) (arg : exn_arg)
with exn_arg : Type :=
  | ArgStr (msg : string)
  | ArgExn (cause : exn).

Definition result (A : Type) : Type := exn + A.

Definition raise {A : Type} (cls : exn_class) (msg : string) : result A :=
  inl (Exc cls (ArgStr msg)).

Definition ret {A : Type} (v : A) : result A := inr v.

Definition bind {A B : Type} (m : result A) (k : A -> result B) : result B :=
  match m with
  | inl e => inl e
  | inr v => k v
  end.

Notation "x <-- m ;; k" := (bind m (fun x => k))
  (at level 100, m at next level, right associativity).

(** ** Values *)

Inductive value : Type :=
  | VStr (s : string)
  | VBool (b : bool)
  | VInt (n : Z)
  | VNone.

(** [str(v)] *)
Definition py_str (v : value) : string :=
  match v with
  | VStr s => s
  | VBool true => "True"
  | VBool false => "False"
  | VInt n => NilZero.string_of_int (Z.to_int n)
  | VNone => "None"
  end.

(** ** Insertion-ordered dictionaries *)

Definition pydict (V : Type) : Type := list (string * V).

(** [d[k]], with [None] for [KeyError]; also [k in d]. *)
Fixpoint dict_get {V : Type} (k : string) (d : pydict V) : option V :=
  match d with
  | [] => None
  | (k', v) :: d' => if String.eqb k' k then Some v else dict_get k d'
  end.

(** [d[k] = v]: an existing key keeps its position. *)
Fixpoint dict_set {V : Type} (k : string) (v : V) (d : pydict V) : pydict V :=
  match d with
  | [] => [(k, v)]
  | (k', v') :: d' =>
      if String.eqb k' k then (k', v) :: d' else (k', v') :: dict_set k v d'
  end.

(** [d.update(other)], also [dict(pairs)] from the empty dictionary. *)
Definition dict_update {V : Type} (d : pydict V) (other : list (string * V)) : pydict V :=
  fold_left (fun acc kv => dict_set (fst kv) (snd kv) acc) other d.

Definition dict {V : Type} (pairs : list (string * V)) : pydict V :=
  dict_update [] pairs.

(** [d.setdefault(k, v)], for its effect on [d]. *)
Definition dict_setdefault {V : Type} (k : string) (v : V) (d : pydict V) : pydict V :=
  match dict_get k d with
  | Some _ => d
  | None => dict_set k v d
  end.

Definition dict_map {V W : Type} (f : V -> W) (d : pydict V) : pydict W :=
  map (fun kv => (fst kv, f (snd kv))) d.

(** The value of the last pair of [l] whose key is [k]. *)
Fixpoint last_value {V : Type} (k : string) (l : list (string * V)) : option V :=
  match l with
  | [] => None
  | (k', v) :: l' =>
      match last_value k l' with
      | Some w => Some w
      | None => if String.eqb k' k then Some v else None
      end
  end.

(** ** [urllib.parse] *)

(** [_WHATWG_C0_CONTROL_OR_SPACE] *)
Definition c0_control_or_space (c : ascii) : bool := (code c <=? 32)%N.

(** [_UNSAFE_URL_BYTES_TO_REMOVE = ['\t', '\r', '\n']] *)
Definition unsafe_url_byte (c : ascii) : bool :=
  (code c =? 9)%N || (code c =? 13)%N || (code c =? 10)%N.

(** [c in scheme_chars] *)
Definition scheme_char (c : ascii) : bool :=
  is_lower c || is_upper c || is_digit c
  || Ascii.eqb c "+" || Ascii.eqb c "-" || Ascii.eqb c ".".

(** The named tuples [SplitResult] and [ParseResult]. *)
Record SplitResult : Type := {
  split_scheme_of : string;
  split_netloc_of : string;
  split_path : string;
  split_query : string;
  split_fragment : string
}.

Record ParseResult : Type := {
  scheme : string;
  netloc : string;
  path : string;
  params : string;
  query : string;
  fragment : string
}.

(** [uses_params] *)
Definition uses_params : list string :=
  [EmptyString; "ftp"; "hdl"; "prospero"; "http"; "imap"; "https"; "shttp"; "rtsp";
   "rtspu"; "sip"; "sips"; "mms"; "sftp"; "tel"].

(** [_splitparams(url)], which is called on a [url] that holds a [;]: the
    cut is at the first [;] after the last [/]. *)
Definition _splitparams (url : string) : string * string :=
  if str_mem "/" url then
    match rpartition "/" url with
    | Some (dir, last) =>
        match partition ";" last with
        | Some (a, b) => (dir +:+ "/" +:+ a, b)
        | None => (url, EmptyString)
        end
    | None => (url, EmptyString)
    end
  else
    match partition ";" url with
    | Some (a, b) => (a, b)
    | None => (url, EmptyString)
    end.

(** The scheme step of [urlsplit]:
    [i = url.find(':')], and when [i > 0], [url[0]] is an ASCII letter and
    all of [url[:i]] is in [scheme_chars],
    [scheme, url = url[:i].lower(), url[i+1:]]. *)
Definition split_scheme (url : string) : string * string :=
  match partition ":" url with
  | Some (String c0 pre', rest) =>
      if is_ascii_alpha c0 && str_all scheme_char (String c0 pre')
      then (lower (String c0 pre'), rest)
      else (EmptyString, url)
  | _ => (EmptyString, url)
  end.

(** [s[n:]] *)
Fixpoint str_drop (n : nat) (s : string) : string :=
  match n, s with
  | O, _ => s
  | S n', String _ s' => str_drop n' s'
  | S _, EmptyString => EmptyString
  end.

(** [_splitnetloc(url, start)]: [(url[start:delim], url[delim:])], where
    [delim] is the first position from [start] of one of [/], [?], [#], or
    the length of [url]. *)
Definition netloc_delim (c : ascii) : bool :=
  Ascii.eqb c "/" || Ascii.eqb c "?" || Ascii.eqb c "#".

Definition _splitnetloc (url : string) (start : nat) : string * string :=
  break_at netloc_delim (str_drop start url).

(** What the model takes from Python's library as given.
    - [bracketed_host_error]: [_check_bracketed_host] validates the text
      between square brackets with the [ipaddress] module and a regular
      expression; [None] when the host is accepted, the message of the
      [ValueError] otherwise.
    - [nfkc]: [unicodedata.normalize('NFKC', s)].
    - [unicode_lower]: [s.lower()] for a string [s] with a non-ASCII
      character.
    Everything proved below holds for every such library. *)
Record Stdlib : Type := {
  bracketed_host_error : string -> option string;
  nfkc : string -> string;
  unicode_lower : string -> string
}.

Section Urllib.

Variable lib : Stdlib.

Definition _check_bracketed_host (hostname : string) : result unit :=
  match bracketed_host_error lib hostname with
  | Some msg => raise ValueError msg
  | None => ret tt
  end.

Definition _check_bracketed_netloc (netloc : string) : result unit :=
  let hostname_and_port :=
    match rpartition "@" netloc with
    | Some (_, r) => r
    | None => netloc
    end in
  match partition "[" hostname_and_port with
  | Some (before_bracket, bracketed) =>
      if nonempty before_bracket then raise ValueError "Invalid IPv6 URL"
      else
        let '(hostname, port) :=
          match partition "]" bracketed with
          | Some (h, p) => (h, p)
          | None => (bracketed, EmptyString)
          end in
        if nonempty port && negb (startswith ":" port)
        then raise ValueError "Invalid IPv6 URL"
        else _check_bracketed_host hostname
  | None =>
      let hostname :=
        match partition ":" hostname_and_port with
        | Some (h, _) => h
        | None => hostname_and_port
        end in
      _check_bracketed_host hostname
  end.

(** The authority step of [urlsplit]: when [url[:2] == '//'], the
    authority is split off and its brackets are checked. *)
Definition split_netloc (url : string) : result (string * string) :=
  if String.prefix "//" url then
    let '(netloc, rest) := _splitnetloc url 2 in
    let lb := str_mem "[" netloc in
    let rb := str_mem "]" netloc in
    if (lb && negb rb) || (rb && negb lb)
    then raise ValueError "Invalid IPv6 URL"
    else
      _ <-- (if lb && rb then _check_bracketed_netloc netloc else ret tt) ;;
      ret (netloc, rest)
  else ret (EmptyString, url).

(** The last steps of [urlsplit]: the fragment after the first [#], then
    the query after the first [?]. *)
Definition split_fragment_query (scheme netloc url : string) : SplitResult :=
  let '(url, fragment) :=
    match partition "#" url with
    | Some (u, f) => (u, f)
    | None => (url, EmptyString)
    end in
  let '(url, query) :=
    match partition "?" url with
    | Some (u, q) => (u, q)
    | None => (url, EmptyString)
    end in
  {| split_scheme_of := scheme; split_netloc_of := netloc; split_path := url;
     split_query := query; split_fragment := fragment |}.

(** [_checknetloc(netloc)]: nothing to check in an empty or ASCII
    authority; otherwise the authority without [@], [:], [#], [?] must not
    gain one of [/], [?], [#], [@], [:] under NFKC normalisation. *)
Definition _checknetloc (netloc : string) : result unit :=
  if negb (nonempty netloc) || str_all is_ascii netloc then ret tt
  else
    let n := str_filter (differs "@") netloc in
    let n := str_filter (differs ":") n in
    let n := str_filter (differs "#") n in
    let n := str_filter (differs "?") n in
    let netloc2 := nfkc lib n in
    if String.eqb n netloc2 then ret tt
    else if existsb (fun c => str_mem c netloc2) ["/"; "?"; "#"; "@"; ":"]%char
         then raise ValueError
                ("netloc '" +:+ netloc
                 +:+ "' contains invalid characters under NFKC normalization")
         else ret tt.

(** [urlsplit(url)] with the default [scheme=''] and
    [allow_fragments=True]. *)
Definition urlsplit (url : string) : result SplitResult :=
  let url := lstrip c0_control_or_space url in
  let url := str_filter (fun c => negb (unsafe_url_byte c)) url in
  let '(scheme, url) := split_scheme url in
  nu <-- split_netloc url ;;
  let '(netloc, url) := nu in
  let v := split_fragment_query scheme netloc url in
  _ <-- _checknetloc netloc ;;
  ret v.

(** [urlparse(url)]: [urlsplit], then the parameters are cut off the path
    of a scheme that uses them. *)
Definition urlparse (url : string) : result ParseResult :=
  splitresult <-- urlsplit url ;;
  let scheme := split_scheme_of splitresult in
  let url := split_path splitresult in
  let '(url, params) :=
    if existsb (String.eqb scheme) uses_params && str_mem ";" url
    then _splitparams url
    else (url, EmptyString) in
  ret {| scheme := scheme; netloc := split_netloc_of splitresult; path := url;
         params := params; query := split_query splitresult;
         fragment := split_fragment splitresult |}.

End Urllib.

(** [_hexdig = '0123456789ABCDEFabcdef'] and the table [_hextobyte]. *)
Definition hex_value (c : ascii) : option N :=
  if is_digit c then Some (code c - 48)%N
  else if in_range 65 70 c then Some (code c - 55)%N
  else if in_range 97 102 c then Some (code c - 87)%N
  else None.

Definition _hextobyte (item : string) : option ascii :=
  match item with
  | String a (String b _) =>
      match hex_value a, hex_value b with
      | Some x, Some y => Some (ascii_of_N (16 * x + y))
      | _, _ => None
      end
  | _ => None
  end.

(** One [item] of [bits[1:]] in [unquote_to_bytes]: the decoded byte and
    [item[2:]], or the [KeyError] branch, ['%'] and [item]. *)
Definition unquote_item (item : string) : string :=
  match _hextobyte item, item with
  | Some byte, String _ (String _ rest) => String byte rest
  | _, _ => String "%" item
  end.

(** [unquote(string)]: [bits = string.split('%')], [bits[0]] followed by
    every other item decoded.  (Without a ['%'] there is one bit and the
    string is returned as it is.)  Python then reads the decoded bytes as
    UTF-8 with [errors='replace']: bytes that are well-formed UTF-8, as
    those of every escape that [quote_plus] writes for a [str] are, are
    the result as they stand, which is the case modelled here; a
    malformed sequence would become U+FFFD. *)
Definition unquote (s : string) : string :=
  match split "%" s with
  | [] => s
  | b0 :: items => b0 +:+ str_join (map unquote_item items)
  end.

(** [parse_qsl(qs)] with its defaults: [keep_blank_values=False],
    [strict_parsing=False], [separator='&']. *)
Definition parse_field (name_value : string) : list (string * string) :=
  if negb (nonempty name_value) then []
  else match partition "=" name_value with
       | None => []
       | Some (n, v) =>
           if nonempty v
           then [(unquote (replace_char "+" " " n), unquote (replace_char "+" " " v))]
           else []
       end.

Definition parse_qsl (qs : string) : list (string * string) :=
  let query_args := if nonempty qs then split "&" qs else [] in
  flat_map parse_field query_args.

(** [_ALWAYS_SAFE] *)
Definition always_safe (c : ascii) : bool :=
  is_upper c || is_lower c || is_digit c
  || Ascii.eqb c "_" || Ascii.eqb c "." || Ascii.eqb c "-" || Ascii.eqb c "~".

Definition hex_digit (n : N) : ascii :=
  if (n <? 10)%N then ascii_of_N (48 + n) else ascii_of_N (55 + n).

(** [_Quoter(safe)[b]]: the character when safe, ['%{:02X}'.format(b)]
    otherwise. *)
Definition quote_byte (safe : ascii -> bool) (c : ascii) : string :=
  if always_safe c || safe c then String c EmptyString
  else String "%" (String (hex_digit (code c / 16))
                  (String (hex_digit (code c mod 16)) EmptyString)).

(** [quote(string, safe)] *)
Definition quote (safe : ascii -> bool) (s : string) : string :=
  str_concat_map (quote_byte safe) s.

(** [quote_plus(string)] with [safe=''] *)
Definition quote_plus (s : string) : string :=
  if negb (str_mem " " s) then quote (fun _ => false) s
  else replace_char " " "+" (quote (fun c => Ascii.eqb c " ") s).

(** [urlencode(query)] with its defaults, on the items of a dictionary. *)
Definition urlencode (query : pydict value) : string :=
  join "&" (map (fun kv => quote_plus (fst kv) +:+ "=" +:+ quote_plus (py_str (snd kv))) query).

(** ** Classes and instances *)

(** A class object: its [__module__] and [__name__], whether it is a subclass
    of [BasePusher], and what calling it with keyword arguments does: the
    attributes of the new instance, or the exception raised. *)
Record PyClass : Type := {
  cls_module : string;
  cls_name : string;
  cls_is_pusher : bool;
  cls_init : pydict value -> result (pydict value)
}.

Record PyObject : Type := {
  ob_type : PyClass;
  ob_attrs : pydict value
}.

(** What a caller can hand to [register_pusher]: a class, or an instance of
    some class. *)
Inductive PyArg : Type :=
  | AClass (c : PyClass)
  | AInstance (o : PyObject).

(** [cls] called with the keyword arguments [kwargs] *)
Definition py_call (cls : PyClass) (kwargs : pydict value) : result PyObject :=
  attrs <-- cls_init cls kwargs ;;
  ret {| ob_type := cls; ob_attrs := attrs |}.

(** [self.name] *)
Definition getattr (self : PyObject) (name : string) : result value :=
  match dict_get name (ob_attrs self) with
  | Some v => ret v
  | None =>
      raise AttributeError
        ("'" +:+ cls_name (ob_type self) +:+ "' object has no attribute '" +:+ name +:+ "'")
  end.

(** [repr(cls)], as ["{}".format(cls)] prints it. *)
Definition class_repr (c : PyClass) : string :=
  if String.eqb (cls_module c) "builtins"
  then "<class '" +:+ cls_name c +:+ "'>"
  else "<class '" +:+ cls_module c +:+ "." +:+ cls_name c +:+ "'>".

(** Modelled from the spec: [utils.get_cls_name] is not in the sources at
    hand; the registry is keyed by the "lowercase type name", which is also
    what the initial population of [all_pushers] computes
    ([cls.__name__.lower()]).  Class names are taken to be ASCII, as those
    of the module are. *)
Definition get_cls_name (c : PyClass) : string := lower (cls_name c).

(** Binding the keyword arguments of a call to
    [__init__(self, field, show_message=True)]: the first keyword that names
    no parameter, or names [self], raises; then a missing [field] raises. *)
Definition bind_init (qualname field : string) (kwargs : pydict value)
  : result (value * value) :=
  match find (fun kv => negb (String.eqb (fst kv) field
                               || String.eqb (fst kv) "show_message")) kwargs with
  | Some (k, _) =>
      if String.eqb k "self"
      then raise TypeError (qualname +:+ "() got multiple values for argument 'self'")
      else raise TypeError
             (qualname +:+ "() got an unexpected keyword argument '" +:+ k +:+ "'")
  | None =>
      match dict_get field kwargs with
      | None =>
          raise TypeError
            (qualname +:+ "() missing 1 required positional argument: '" +:+ field +:+ "'")
      | Some v =>
          ret (v, match dict_get "show_message" kwargs with
                  | Some b => b
                  | None => VBool true
                  end)
      end
  end.

(** Modelled from the spec: [BasePusher.__init__] is not in the sources at
    hand; it keeps the [show_message] flag "set at construction".  (The HTTP
    session it opens is the transport of section [Pusher] below.) *)
Definition BasePusher___init__ (show_message : value) : pydict value :=
  [("show_message", show_message)].

Definition Webhook___init__ (kwargs : pydict value) : result (pydict value) :=
  a <-- bind_init "Webhook.__init__" "url" kwargs ;;
  ret (dict_set "url" (fst a) (BasePusher___init__ (snd a))).

Definition Telegram___init__ (kwargs : pydict value) : result (pydict value) :=
  a <-- bind_init "Telegram.__init__" "token" kwargs ;;
  ret (dict_set "token" (fst a) (BasePusher___init__ (snd a))).

Definition Wechat___init__ (kwargs : pydict value) : result (pydict value) :=
  a <-- bind_init "Wechat.__init__" "sckey" kwargs ;;
  ret (dict_set "sckey" (fst a) (BasePusher___init__ (snd a))).

Definition WirePusher___init__ (kwargs : pydict value) : result (pydict value) :=
  a <-- bind_init "WirePusher.__init__" "pid" kwargs ;;
  ret (dict_set "pid" (fst a) (BasePusher___init__ (snd a))).

Definition pusher_class (name : string) (init : pydict value -> result (pydict value))
  : PyClass :=
  {| cls_module := "knotify.pusher"; cls_name := name;
     cls_is_pusher := true; cls_init := init |}.

Definition Webhook : PyClass := pusher_class "Webhook" Webhook___init__.
Definition Telegram : PyClass := pusher_class "Telegram" Telegram___init__.
Definition Wechat : PyClass := pusher_class "Wechat" Wechat___init__.
Definition WirePusher : PyClass := pusher_class "WirePusher" WirePusher___init__.

(** [Telegram._api], [Wechat._api], and the class attributes of [WirePusher]. *)
Definition Telegram__api : string := "https://tgbot.lbyczf.com/sendMessage/{token}".
Definition Wechat__api : string := "http://sc.ftqq.com/{sckey}.send".
Definition WirePusher__api : string := "https://wirepusher.com/send".
Definition WirePusher__args : list string :=
  ["id"; "title"; "message"; "type"; "action"; "image_url"; "message_id"].
Definition WirePusher__mandatory : list string := ["id"; "title"; "message"].

(** A class that is not a pusher: the builtin [object]. *)
Definition object_class : PyClass :=
  {| cls_module := "builtins"; cls_name := "object"; cls_is_pusher := false;
     cls_init := fun kwargs =>
       match kwargs with
       | [] => ret []
       | _ :: _ => raise TypeError "object() takes no arguments"
       end |}.

(** ** The registry *)

(** [BasePusher.__subclasses__()] when the module has been loaded. *)
Definition BasePusher_subclasses : list PyClass :=
  [Webhook; Telegram; Wechat; WirePusher].

(** [all_pushers = {cls.__name__.lower(): cls for cls in BasePusher.__subclasses__()}] *)
Definition all_pushers : gmap string PyClass :=
  fold_left (fun m cls => <[lower (cls_name cls) := cls]> m) BasePusher_subclasses ∅.

(** [register_pusher(pusher)]: the registry after the call, or the exception.
    [isinstance(pusher, type)] holds of a class, [isinstance(pusher, BasePusher)]
    of an instance of a subclass of [BasePusher]. *)
Definition register_pusher (all_pushers : gmap string PyClass) (pusher : PyArg)
  : result (gmap string PyClass) :=
  match pusher with
  | AClass cls => ret (<[get_cls_name cls := cls]> all_pushers)
  | AInstance o =>
      if cls_is_pusher (ob_type o)
      then ret (<[get_cls_name (ob_type o) := ob_type o]> all_pushers)
      else raise KnotifyException ("Invalid pusher type " +:+ class_repr (ob_type o))
  end.

(** Modelled from the spec: [BasePusher._build_body] is not in the sources at
    hand.  The spec: it "computes the intersection of provided_fields ∪
    defaults with allowed_fields; for each name in mandatory_fields absent
    after merging, fails with a ConfigurationError naming the missing
    field"; fields that are not allowed are dropped and returned as the
    second component.  The error is the program's one exception class, with
    the missing field's name as its argument. *)
Definition _build_body (allowed : list string) (provided : pydict value)
    (mandatory : list string) (defaults : pydict value)
  : result (pydict value * list string) :=
  let merged :=
    fold_left (fun d kv => dict_setdefault (fst kv) (snd kv) d) defaults provided in
  let is_allowed := fun kv : string * value => existsb (String.eqb (fst kv)) allowed in
  match find (fun name => match dict_get name merged with Some _ => false | None => true end) mandatory with
  | Some name => raise KnotifyException name
  | None =>
      ret (List.filter is_allowed merged,
           map fst (List.filter (fun kv => negb (is_allowed kv)) merged))
  end.

Section Pusher.

Variable lib : Stdlib.

(** [s.lower()]: the ASCII letters of an ASCII string, Unicode's case
    mapping otherwise. *)
Definition str_lower (s : string) : string :=
  if str_all is_ascii s then lower s else unicode_lower lib s.

(** The spelling of the fixed scheme in the URIs the pushers generate.
    The docstring of [get_pusher] writes it [Knotify], its test compares
    with [knotify]. *)
Variable uri_scheme : string.

(** The transport: [self.s.post(url, json=body)] and
    [self.s.get(url, params=body)] of the [requests] session, and
    [BasePusher._check_result], which is not in the sources at hand and
    turns the response into the result of the push or raises. *)
Variables Response SendResult : Type.
Variable session_post : value -> pydict value -> Response.
Variable session_get : value -> pydict value -> Response.
Variable _check_result : Response -> result SendResult.

(** Modelled from the spec: [BasePusher._format_uri] is not in the sources
    at hand.  The spec: the canonical URI is
    [scheme://type-name?param=value&...], the type name lowercase, the
    query parameters urlencoded from the identity fields. *)
Definition _format_uri (self : PyObject) (kwargs : pydict value) : string :=
  uri_scheme +:+ "://" +:+ get_cls_name (ob_type self) +:+ "?" +:+ urlencode kwargs.

(** *** Webhook *)

Definition Webhook__push (self : PyObject) (message : value) (kwargs : pydict value)
  : result SendResult :=
  let kwargs := dict_setdefault "content" message kwargs in
  url <-- getattr self "url" ;;
  _check_result (session_post url kwargs).

Definition Webhook_uri (self : PyObject) : result string :=
  url <-- getattr self "url" ;;
  ret (_format_uri self [("url", url)]).

(** *** Telegram *)

Definition Telegram__push (self : PyObject) (message : value) (kwargs : pydict value)
  : result SendResult :=
  let req_body := [("text", message); ("parse_mode", VStr "Markdown")] in
  let req_body := dict_update req_body kwargs in
  token <-- getattr self "token" ;;
  _check_result
    (session_post (VStr (format Telegram__api "token" (py_str token))) req_body).

Definition Telegram_uri (self : PyObject) : result string :=
  token <-- getattr self "token" ;;
  ret (_format_uri self [("token", token)]).

(** *** Wechat *)

Definition Wechat__push (self : PyObject) (message : value) (kwargs : pydict value)
  : result SendResult :=
  sckey <-- getattr self "sckey" ;;
  _check_result
    (session_get (VStr (format Wechat__api "sckey" (py_str sckey)))
                 (dict [("text", message)])).

Definition Wechat_uri (self : PyObject) : result string :=
  sckey <-- getattr self "sckey" ;;
  ret (_format_uri self [("sckey", sckey)]).

(** *** WirePusher *)

Definition WirePusher__push (self : PyObject) (message : value) (kwargs : pydict value)
  : result SendResult :=
  pid <-- getattr self "pid" ;;
  let kwargs := dict_setdefault "id" pid kwargs in
  let kwargs := dict_setdefault "title" (VStr "Knotify Message") kwargs in
  br <-- _build_body WirePusher__args kwargs WirePusher__mandatory
                     [("message", message)] ;;
  let req_body := fst br in
  _check_result (session_get (VStr WirePusher__api) req_body).

Definition WirePusher_uri (self : PyObject) : result string :=
  pid <-- getattr self "pid" ;;
  ret (_format_uri self [("pid", pid)]).

(** *** get_pusher *)

Definition get_pusher (all_pushers : gmap string PyClass) (uri : string)
  : result PyObject :=
  parsed <-- urlparse lib uri ;;
  let name := str_lower (netloc parsed) in
  if negb (String.eqb (scheme parsed) "knotify")
  then raise KnotifyException "Invalid url scheme"
  else
    match all_pushers !! name with
    | None => raise KnotifyException ("Invalid class name " +:+ netloc parsed)
    | Some cls =>
        let params := dict (parse_qsl (query parsed)) in
        match py_call cls (dict_map VStr params) with
        | inr pusher => ret pusher
        | inl e => inl (Exc KnotifyException (ArgExn e))
        end
    end.

End Pusher.

Arguments Webhook__push {Response SendResult} _ _ _ _ _.
Arguments Telegram__push {Response SendResult} _ _ _ _ _.
Arguments Wechat__push {Response SendResult} _ _ _ _ _.
Arguments WirePusher__push {Response SendResult} _ _ _ _ _.

(** ** Vocabulary of the statements *)

(** The characters [quote_plus] can produce. *)
Definition quoted_char (c : ascii) : bool :=
  always_safe c || Ascii.eqb c "%" || Ascii.eqb c "+".

(** A scheme as [urlsplit] recognises it: a letter, then scheme characters. *)
Definition scheme_shaped (s : string) : bool :=
  match s with
  | EmptyString => false
  | String c0 _ => is_ascii_alpha c0 && str_all scheme_char s
  end.

(** The characters of an authority that reaches [netloc] unchanged and
    without a bracket check. *)
Definition host_char (c : ascii) : bool :=
  negb (netloc_delim c) && negb (Ascii.eqb c "[") && negb (Ascii.eqb c "]")
  && negb (unsafe_url_byte c).

(** The characters of a query that reaches [query] unchanged. *)
Definition query_char (c : ascii) : bool :=
  negb (Ascii.eqb c "#") && negb (unsafe_url_byte c).

(** Every entry of the registry is a subclass of [BasePusher]. *)
Definition registry_pushers (reg : gmap string PyClass) : Prop :=
  forall name cls, reg !! name = Some cls -> cls_is_pusher cls = true.

(** [pusher.__class__] for an instance, the class itself for a class: what
    [register_pusher] stores. *)
Definition arg_class (a : PyArg) : PyClass :=
  match a with
  | AClass cls => cls
  | AInstance o => ob_type o
  end.

(** The arguments [register_pusher] does not reject. *)
Definition accepted (a : PyArg) : bool :=
  match a with
  | AClass _ => true
  | AInstance o => cls_is_pusher (ob_type o)
  end.

(** The dictionary [WirePusher._push] has built when [_build_body] has
    merged its defaults, and the test of the allow-list. *)
Definition WirePusher_kwargs (pid message : value) (kwargs : pydict value)
  : pydict value :=
  dict_setdefault "message" message
    (dict_setdefault "title" (VStr "Knotify Message")
       (dict_setdefault "id" pid kwargs)).

Definition WirePusher_allowed (kv : string * value) : bool :=
  existsb (String.eqb (fst kv)) WirePusher__args.

(** The four pushers of the module, each with its identity field and its
    [uri] property. *)
Inductive backend : Type := BWebhook | BTelegram | BWechat | BWirePusher.

Definition backend_class (b : backend) : PyClass :=
  match b with
  | BWebhook => Webhook
  | BTelegram => Telegram
  | BWechat => Wechat
  | BWirePusher => WirePusher
  end.

Definition identity_field (b : backend) : string :=
  match b with
  | BWebhook => "url"
  | BTelegram => "token"
  | BWechat => "sckey"
  | BWirePusher => "pid"
  end.

Definition backend_uri (uri_scheme : string) (b : backend) (self : PyObject)
  : result string :=
  match b with
  | BWebhook => Webhook_uri uri_scheme self
  | BTelegram => Telegram_uri uri_scheme self
  | BWechat => Wechat_uri uri_scheme self
  | BWirePusher => WirePusher_uri uri_scheme self
  end.

(** The keyword arguments of a direct construction: the identity field and,
    when given, [show_message]. *)
Definition construct_kwargs (b : backend) (v : value) (show_message : option value)
  : pydict value :=
  (identity_field b, v)
  :: match show_message with
     | Some x => [("show_message", x)]
     | None => []
     end.

(** A library whose bracketed-host check accepts every host and whose
    Unicode functions change nothing; on ASCII text, which is all that the
    instances below use, only the first is consulted. *)
Definition accept_bracketed_host : Stdlib :=
  {| bracketed_host_error := fun _ => None;
     nfkc := fun s => s;
     unicode_lower := fun s => s |}.

Definition Webhook_empty_url : PyObject :=
  {| ob_type := Webhook; ob_attrs := [("show_message", VBool true); ("url", VStr EmptyString)] |}.

(** A second class whose name is [TELEGRAM]: a pusher that takes a [url]. *)
Definition Telegram_upper : PyClass := pusher_class "TELEGRAM" Webhook___init__.

(** A transport that answers with the request it was given. *)
Definition echo (url : value) (body : pydict value) : value * pydict value :=
  (url, body).


(** The keywords that [__init__(self, field, show_message=True)] takes. *)
Definition init_keyword (field k : string) : Prop :=
  k = field \/ k = "show_message".

(** The [show_message] argument of a call: the keyword when given, the
    default [True] otherwise. *)
Definition show_message_of (kwargs : pydict value) : value :=
  match dict_get "show_message" kwargs with
  | Some x => x
  | None => VBool true
  end.

(** The instance of a pusher class with the given identity value and flag. *)
Definition backend_instance (b : backend) (v show_message : value) : PyObject :=
  {| ob_type := backend_class b;
     ob_attrs := [("show_message", show_message); (identity_field b, v)] |}.

(** [self._push(message, ...)] for an instance of each of the four classes. *)
Definition backend_push {Response SendResult : Type}
    (session_post session_get : value -> pydict value -> Response)
    (_check_result : Response -> result SendResult)
    (b : backend) (self : PyObject) (message : value) (kwargs : pydict value)
  : result SendResult :=
  match b with
  | BWebhook => Webhook__push session_post _check_result self message kwargs
  | BTelegram => Telegram__push session_post _check_result self message kwargs
  | BWechat => Wechat__push session_get _check_result self message kwargs
  | BWirePusher => WirePusher__push session_get _check_result self message kwargs
  end.

(** The address each class sends to, for the identity value [v]. *)
Definition backend_endpoint (b : backend) (v : string) : value :=
  match b with
  | BWebhook => VStr v
  | BTelegram => VStr ("https://tgbot.lbyczf.com/sendMessage/" +:+ v)
  | BWechat => VStr ("http://sc.ftqq.com/" +:+ v +:+ ".send")
  | BWirePusher => VStr "https://wirepusher.com/send"
  end.

(** Registering [a] and then [b]. *)
Definition register_both (reg : gmap string PyClass) (a b : PyArg)
  : result (gmap string PyClass) :=
  reg1 <-- register_pusher reg a ;;
  register_pusher reg1 b.


(** The characters of a query field that holds no [&] and no [=]. *)
Definition field_char (c : ascii) : bool :=
  query_char c && differs "&" c && differs "=" c.

(** The session method each class sends with: POST for [Webhook] and
    [Telegram], GET for [Wechat] and [WirePusher]. *)
Definition backend_send {Response : Type}
    (session_post session_get : value -> pydict value -> Response) (b : backend)
  : value -> pydict value -> Response :=
  match b with
  | BWebhook | BTelegram => session_post
  | BWechat | BWirePusher => session_get
  end.

(** What [get_pusher] makes of the outcome of the constructor. *)
Definition wrap_constructor (r : result PyObject) : result PyObject :=
  match r with
  | inr pusher => inr pusher
  | inl e => inl (Exc KnotifyException (ArgExn e))
  end.

(** How [parse_qsl] decodes a name or a value: [s.replace('+', ' ')], then
    [unquote]. *)
Definition unquote_plus (s : string) : string := unquote (replace_char "+" " " s).

(** The field [f] of a query gives the pair [(k, v)]: it reads [n=w], where
    [n] holds no [=] and [w] is not blank, [n] decodes to [k] and [w] to
    [v].  A field without [=], or with nothing after its first [=], gives
    no pair. *)
Definition field_gives (f k v : string) : Prop :=
  exists n w,
    f = n +:+ "=" +:+ w /\ str_mem "=" n = false /\ w <> EmptyString
    /\ unquote_plus n = k /\ unquote_plus w = v.

(** * Properties *)

(** ** Characters, by cases on the eight bits *)

Ltac ascii_cases c := destruct c as [[] [] [] [] [] [] [] []].
Ltac by_ascii c := ascii_cases c; vm_compute; solve [ reflexivity | discriminate | tauto | congruence ].

Lemma alpha_not_c0 c : is_ascii_alpha c = true -> c0_control_or_space c = false.
Proof. by_ascii c. Qed.

Lemma scheme_char_lower c : scheme_char (lower_char c) = scheme_char c.
Proof. by_ascii c. Qed.

Lemma is_ascii_alpha_lower c : is_ascii_alpha (lower_char c) = is_ascii_alpha c.
Proof. by_ascii c. Qed.

Lemma hex_value_not_percent c x : hex_value c = Some x -> Ascii.eqb c "%" = false.
Proof. by_ascii c. Qed.

(** ** Strings *)

Lemma append_nil_r (s : string) : s +:+ EmptyString = s.
Proof. induction s; simpl; congruence. Qed.

Lemma str_map_app f (a b : string) : str_map f (a +:+ b) = str_map f a +:+ str_map f b.
Proof. induction a; simpl; congruence. Qed.

Lemma str_filter_app p (a b : string) :
  str_filter p (a +:+ b) = str_filter p a +:+ str_filter p b.
Proof. induction a as [|c a IH]; simpl; [reflexivity|]. destruct (p c); simpl; congruence. Qed.

Lemma str_all_app p (a b : string) : str_all p (a +:+ b) = str_all p a && str_all p b.
Proof. induction a as [|c a IH]; simpl; [reflexivity|]. rewrite IH. apply andb_assoc. Qed.

Lemma str_all_impl (p q : ascii -> bool) (s : string) :
  (forall c, p c = true -> q c = true) -> str_all p s = true -> str_all q s = true.
Proof.
  intros Hpq. induction s as [|c s IH]; simpl; [reflexivity|].
  intros H. apply andb_prop in H as [Hc Hs]. rewrite (Hpq _ Hc), (IH Hs). reflexivity.
Qed.

Lemma str_all_map (p : ascii -> bool) (f : ascii -> ascii) (s : string) :
  (forall c, p (f c) = p c) -> str_all p (str_map f s) = str_all p s.
Proof. intros Hf. induction s as [|c s IH]; simpl; [reflexivity|]. rewrite Hf, IH. reflexivity. Qed.

Lemma str_filter_all p (s : string) : str_all p s = true -> str_filter p s = s.
Proof.
  induction s as [|c s IH]; simpl; [reflexivity|].
  intros H. apply andb_prop in H as [Hc Hs]. rewrite Hc, (IH Hs). reflexivity.
Qed.

Lemma str_mem_absent c (s : string) : str_all (differs c) s = true -> str_mem c s = false.
Proof.
  induction s as [|a s IH]; simpl; [reflexivity|].
  unfold differs at 1. intros H. apply andb_prop in H as [Ha Hs].
  apply negb_true_iff in Ha. rewrite Ha, (IH Hs). reflexivity.
Qed.

Lemma partition_absent c (s : string) : str_all (differs c) s = true -> partition c s = None.
Proof.
  induction s as [|a s IH]; simpl; [reflexivity|].
  unfold differs at 1. intros H. apply andb_prop in H as [Ha Hs].
  apply negb_true_iff in Ha. rewrite Ha, (IH Hs). reflexivity.
Qed.

Lemma partition_first c (a b : string) :
  str_all (differs c) a = true -> partition c (a +:+ String c b) = Some (a, b).
Proof.
  induction a as [|x a IH]; simpl.
  - intros _. rewrite Ascii.eqb_refl. reflexivity.
  - unfold differs at 1. intros H. apply andb_prop in H as [Hx Ha].
    apply negb_true_iff in Hx. rewrite Hx, (IH Ha). reflexivity.
Qed.

Lemma split_absent c (s : string) : str_all (differs c) s = true -> split c s = [s].
Proof.
  induction s as [|a s IH]; simpl; [reflexivity|].
  unfold differs at 1. intros H. apply andb_prop in H as [Ha Hs].
  apply negb_true_iff in Ha. rewrite Ha, (IH Hs). reflexivity.
Qed.

Lemma split_not_nil c (s : string) : exists h t, split c s = h :: t.
Proof.
  induction s as [|a s [h [t IH]]]; simpl; [eauto|].
  destruct (Ascii.eqb a c); [eauto|]. rewrite IH. eauto.
Qed.

Lemma break_at_first p (a : string) x (b : string) :
  str_all (fun c => negb (p c)) a = true -> p x = true ->
  break_at p (a +:+ String x b) = (a, String x b).
Proof.
  intros Ha Hx. induction a as [|y a IH]; simpl in *.
  - rewrite Hx. reflexivity.
  - apply andb_prop in Ha as [Hy Ha]. apply negb_true_iff in Hy.
    rewrite Hy, (IH Ha). reflexivity.
Qed.

(** ** Percent-encoding *)

Lemma unquote_plain c (s : string) :
  Ascii.eqb c "%" = false -> unquote (String c s) = String c (unquote s).
Proof.
  intros Hc. unfold unquote. simpl. rewrite Hc.
  destruct (split_not_nil "%" s) as [h [t ->]]. reflexivity.
Qed.

Lemma unquote_escape a b byte (s : string) :
  _hextobyte (String a (String b EmptyString)) = Some byte ->
  unquote (String "%" (String a (String b s))) = String byte (unquote s).
Proof.
  intros H. unfold unquote. simpl split.
  assert (Ha : Ascii.eqb a "%" = false).
  { simpl in H. destruct (hex_value a) eqn:E; [|discriminate]. eapply hex_value_not_percent, E. }
  assert (Hb : Ascii.eqb b "%" = false).
  { simpl in H. destruct (hex_value a); [|discriminate].
    destruct (hex_value b) eqn:E; [|discriminate]. eapply hex_value_not_percent, E. }
  rewrite Ha, Hb. destruct (split_not_nil "%" s) as [h [t ->]].
  simpl. unfold unquote_item at 1.
  change (_hextobyte (String a (String b h))) with (_hextobyte (String a (String b EmptyString))).
  rewrite H. reflexivity.
Qed.

Ltac eval_quoted :=
  match goal with
  | |- unquote (?q +:+ _) = _ => let v := eval vm_compute in q in change q with v
  end;
  simpl String.append;
  first [ apply unquote_escape; reflexivity | apply unquote_plain; reflexivity ].

Lemma unquote_quote_byte c (s : string) :
  unquote (replace_char "+" " " (quote_byte (fun _ => false) c) +:+ s)
  = String c (unquote s).
Proof. ascii_cases c; eval_quoted. Qed.

Lemma unquote_quote_byte_space c (s : string) :
  unquote (replace_char "+" " "
             (replace_char " " "+" (quote_byte (fun a => Ascii.eqb a " ") c)) +:+ s)
  = String c (unquote s).
Proof. ascii_cases c; eval_quoted. Qed.

Lemma quote_cons safe c (s : string) :
  quote safe (String c s) = quote_byte safe c +:+ quote safe s.
Proof. reflexivity. Qed.

Lemma replace_char_app a b (x y : string) :
  replace_char a b (x +:+ y) = replace_char a b x +:+ replace_char a b y.
Proof. apply str_map_app. Qed.

Lemma unquote_quote (s : string) :
  unquote (replace_char "+" " " (quote (fun _ => false) s)) = s.
Proof.
  induction s as [|c s IH]; [reflexivity|].
  rewrite quote_cons, replace_char_app, unquote_quote_byte, IH. reflexivity.
Qed.

Lemma unquote_quote_space (s : string) :
  unquote (replace_char "+" " "
             (replace_char " " "+" (quote (fun a => Ascii.eqb a " ") s))) = s.
Proof.
  induction s as [|c s IH]; [reflexivity|].
  rewrite quote_cons, !replace_char_app, unquote_quote_byte_space, IH. reflexivity.
Qed.

(** Decoding a query value undoes [quote_plus]. *)
Lemma unquote_plus_quote_plus (s : string) :
  unquote (replace_char "+" " " (quote_plus s)) = s.
Proof.
  unfold quote_plus. destruct (str_mem " " s); simpl.
  - apply unquote_quote_space.
  - apply unquote_quote.
Qed.

Lemma quote_byte_quoted c : str_all quoted_char (quote_byte (fun _ => false) c) = true.
Proof. ascii_cases c; reflexivity. Qed.

Lemma quote_byte_space_quoted c :
  str_all quoted_char
    (replace_char " " "+" (quote_byte (fun a => Ascii.eqb a " ") c)) = true.
Proof. ascii_cases c; reflexivity. Qed.

Lemma quote_plus_quoted (s : string) : str_all quoted_char (quote_plus s) = true.
Proof.
  unfold quote_plus. destruct (str_mem " " s); simpl.
  - induction s as [|c s IH]; [reflexivity|].
    rewrite quote_cons, replace_char_app, str_all_app, quote_byte_space_quoted. exact IH.
  - induction s as [|c s IH]; [reflexivity|].
    rewrite quote_cons, str_all_app, quote_byte_quoted. exact IH.
Qed.

Lemma quote_byte_nonempty safe c : nonempty (quote_byte safe c) = true.
Proof. unfold quote_byte. destruct (always_safe c || safe c); reflexivity. Qed.

Lemma nonempty_app_l (a b : string) : nonempty a = true -> nonempty (a +:+ b) = true.
Proof. destruct a; simpl; [discriminate | reflexivity]. Qed.

Lemma nonempty_map f (s : string) : nonempty (str_map f s) = nonempty s.
Proof. destruct s; reflexivity. Qed.

Lemma quote_plus_nonempty (s : string) : s <> EmptyString -> nonempty (quote_plus s) = true.
Proof.
  intros Hs. destruct s as [|c s]; [congruence|].
  unfold quote_plus. destruct (negb _); unfold replace_char;
    rewrite ?nonempty_map, quote_cons; apply nonempty_app_l, quote_byte_nonempty.
Qed.

Lemma quoted_not_amp c : quoted_char c = true -> differs "&" c = true.
Proof. by_ascii c. Qed.

Lemma quoted_not_eq c : quoted_char c = true -> differs "=" c = true.
Proof. by_ascii c. Qed.

(** ** [urlsplit] on well-formed input *)

Lemma host_char_not_delim c : host_char c = true -> negb (netloc_delim c) = true.
Proof. by_ascii c. Qed.

Lemma host_char_not_lb c : host_char c = true -> differs "[" c = true.
Proof. by_ascii c. Qed.

Lemma host_char_not_rb c : host_char c = true -> differs "]" c = true.
Proof. by_ascii c. Qed.

Lemma host_char_safe c : host_char c = true -> negb (unsafe_url_byte c) = true.
Proof. by_ascii c. Qed.

Lemma query_char_not_hash c : query_char c = true -> differs "#" c = true.
Proof. by_ascii c. Qed.

Lemma query_char_safe c : query_char c = true -> negb (unsafe_url_byte c) = true.
Proof. by_ascii c. Qed.

Lemma scheme_char_safe c : scheme_char c = true -> negb (unsafe_url_byte c) = true.
Proof. by_ascii c. Qed.

Lemma scheme_char_differs_colon c : scheme_char c = true -> differs ":" c = true.
Proof. by_ascii c. Qed.

Lemma quoted_query_char c : quoted_char c = true -> query_char c = true.
Proof. by_ascii c. Qed.

Lemma scheme_shaped_lower (s : string) : scheme_shaped (lower s) = scheme_shaped s.
Proof.
  destruct s as [|c s]; [reflexivity|]. unfold scheme_shaped, lower.
  cbn [str_map str_all].
  rewrite (str_all_map scheme_char lower_char _ scheme_char_lower).
  rewrite is_ascii_alpha_lower, scheme_char_lower. reflexivity.
Qed.

Lemma split_scheme_shaped (sch rest : string) :
  scheme_shaped sch = true ->
  split_scheme (sch +:+ String ":" rest) = (lower sch, rest).
Proof.
  intros H. unfold split_scheme.
  destruct sch as [|c0 pre]; [discriminate|].
  unfold scheme_shaped in H. apply andb_prop in H as [Hc0 Hall].
  rewrite partition_first
    by (eapply str_all_impl; [apply scheme_char_differs_colon | exact Hall]).
  rewrite Hc0, Hall. reflexivity.
Qed.

Lemma prefix_slashes (s : string) :
  String.prefix "//" (String "/" (String "/" s)) = true.
Proof. destruct s; reflexivity. Qed.

Section UrlsplitFacts.

Variable chk : Stdlib.

Lemma scheme_split_fragment_query sch nl url :
  split_scheme_of (split_fragment_query sch nl url) = sch.
Proof.
  unfold split_fragment_query.
  destruct (partition "#" url) as [[u f]|];
    [destruct (partition "?" u) as [[? ?]|] | destruct (partition "?" url) as [[? ?]|]];
    reflexivity.
Qed.

(** The text up to the first colon, when it has the shape of a scheme, is
    the scheme of the result, in lower case. *)
Lemma urlsplit_scheme (sch rest : string) (r : SplitResult) :
  scheme_shaped sch = true ->
  urlsplit chk (sch +:+ String ":" rest) = inr r ->
  split_scheme_of r = lower sch.
Proof.
  intros Hs. unfold urlsplit.
  assert (Hl : lstrip c0_control_or_space (sch +:+ String ":" rest)
               = sch +:+ String ":" rest).
  { destruct sch as [|c0 pre]; [discriminate|]. simpl.
    unfold scheme_shaped in Hs. apply andb_prop in Hs as [Hc0 _].
    rewrite (alpha_not_c0 _ Hc0). reflexivity. }
  rewrite Hl, str_filter_app.
  rewrite (str_filter_all _ sch).
  2:{ destruct sch as [|c0 pre]; [discriminate|].
      unfold scheme_shaped in Hs. apply andb_prop in Hs as [_ Hall].
      eapply str_all_impl; [apply scheme_char_safe | exact Hall]. }
  change (str_filter (fun c => negb (unsafe_url_byte c)) (String ":" rest))
    with (String ":" (str_filter (fun c => negb (unsafe_url_byte c)) rest)).
  rewrite (split_scheme_shaped _ _ Hs).
  destruct (split_netloc chk _) as [e|[nl url]]; simpl; [discriminate|].
  destruct (_checknetloc chk nl) as [e|[]]; simpl; [discriminate|].
  intros [= <-]. apply scheme_split_fragment_query.
Qed.

Lemma _checknetloc_ascii (host : string) :
  str_all is_ascii host = true -> _checknetloc chk host = ret tt.
Proof. intros H. unfold _checknetloc. rewrite H, orb_true_r. reflexivity. Qed.

(** A URI of the canonical form [scheme://host?query] splits into exactly
    these parts, once the authority has passed [_checknetloc]. *)
Lemma urlsplit_canonical_checked (sch host q : string) :
  scheme_shaped sch = true ->
  str_all host_char host = true ->
  str_all query_char q = true ->
  urlsplit chk (sch +:+ "://" +:+ host +:+ "?" +:+ q)
  = (_ <-- _checknetloc chk host ;;
     ret {| split_scheme_of := lower sch; split_netloc_of := host;
            split_path := EmptyString; split_query := q;
            split_fragment := EmptyString |}).
Proof.
  intros Hs Hh Hq. unfold urlsplit.
  assert (Hl : forall rest, lstrip c0_control_or_space (sch +:+ rest) = sch +:+ rest).
  { intros rest. destruct sch as [|c0 pre]; [discriminate|]. simpl.
    unfold scheme_shaped in Hs. apply andb_prop in Hs as [Hc0 _].
    rewrite (alpha_not_c0 _ Hc0). reflexivity. }
  rewrite Hl, str_filter_app.
  rewrite (str_filter_all _ sch).
  2:{ destruct sch as [|c0 pre]; [discriminate|].
      unfold scheme_shaped in Hs. apply andb_prop in Hs as [_ Hall].
      eapply str_all_impl; [apply scheme_char_safe | exact Hall]. }
  change ("://" +:+ host +:+ "?" +:+ q)
    with (String ":" (String "/" (String "/" (host +:+ String "?" q)))).
  change (str_filter (fun c => negb (unsafe_url_byte c))
            (String ":" (String "/" (String "/" (host +:+ String "?" q)))))
    with (String ":" (String "/" (String "/"
            (str_filter (fun c => negb (unsafe_url_byte c)) (host +:+ String "?" q))))).
  rewrite str_filter_app.
  rewrite (str_filter_all _ host)
    by (eapply str_all_impl; [apply host_char_safe | exact Hh]).
  change (str_filter (fun c => negb (unsafe_url_byte c)) (String "?" q))
    with (String "?" (str_filter (fun c => negb (unsafe_url_byte c)) q)).
  rewrite (str_filter_all _ q)
    by (eapply str_all_impl; [apply query_char_safe | exact Hq]).
  rewrite (split_scheme_shaped _ _ Hs).
  unfold split_netloc, _splitnetloc.
  rewrite prefix_slashes. cbn [str_drop].
  rewrite break_at_first;
    [| eapply str_all_impl; [apply host_char_not_delim | exact Hh] | reflexivity].
  rewrite (str_mem_absent "[" host)
    by (eapply str_all_impl; [apply host_char_not_lb | exact Hh]).
  rewrite (str_mem_absent "]" host)
    by (eapply str_all_impl; [apply host_char_not_rb | exact Hh]).
  cbn [andb orb negb bind ret]. unfold split_fragment_query.
  assert (Hp : partition "#" (String "?" q) = None).
  { apply (partition_absent "#" (String "?" q)). simpl.
    eapply str_all_impl; [apply query_char_not_hash | exact Hq]. }
  assert (Hp' : partition "?" (String "?" q) = Some (EmptyString, q)) by reflexivity.
  rewrite Hp, Hp'. reflexivity.
Qed.

Lemma urlparse_scheme (sch rest : string) (r : ParseResult) :
  scheme_shaped sch = true ->
  urlparse chk (sch +:+ String ":" rest) = inr r ->
  scheme r = lower sch.
Proof.
  intros Hs. unfold urlparse.
  destruct (urlsplit chk _) as [e|sr] eqn:E; simpl; [discriminate|].
  match goal with
  | |- context [let '(_, _) := ?x in _] => destruct x as [url ps]
  end.
  intros [= <-]. simpl. apply (urlsplit_scheme sch rest sr Hs E).
Qed.

Lemma urlparse_canonical_checked (sch host q : string) :
  scheme_shaped sch = true ->
  str_all host_char host = true ->
  str_all query_char q = true ->
  urlparse chk (sch +:+ "://" +:+ host +:+ "?" +:+ q)
  = (_ <-- _checknetloc chk host ;;
     ret {| scheme := lower sch; netloc := host; path := EmptyString;
            params := EmptyString; query := q; fragment := EmptyString |}).
Proof.
  intros Hs Hh Hq. unfold urlparse.
  rewrite (urlsplit_canonical_checked sch host q Hs Hh Hq).
  destruct (_checknetloc chk host) as [e|[]]; simpl; [reflexivity|].
  rewrite andb_false_r. reflexivity.
Qed.

(** With an ASCII authority there is nothing to check. *)
Lemma urlparse_canonical (sch host q : string) :
  scheme_shaped sch = true ->
  str_all host_char host = true ->
  str_all is_ascii host = true ->
  str_all query_char q = true ->
  urlparse chk (sch +:+ "://" +:+ host +:+ "?" +:+ q)
  = inr {| scheme := lower sch; netloc := host; path := EmptyString; params := EmptyString;
           query := q; fragment := EmptyString |}.
Proof.
  intros Hs Hh Ha Hq.
  rewrite (urlparse_canonical_checked sch host q Hs Hh Hq), (_checknetloc_ascii host Ha).
  reflexivity.
Qed.

End UrlsplitFacts.

(** ** Dictionaries *)

Section DictFacts.

Context {V : Type}.
Implicit Types (d : pydict V) (l : list (string * V)) (k : string).

Lemma dict_get_set_eq k (v : V) d : dict_get k (dict_set k v d) = Some v.
Proof.
  induction d as [|[k' v'] d IH]; simpl.
  - rewrite String.eqb_refl. reflexivity.
  - destruct (String.eqb k' k) eqn:E; simpl; rewrite E; [reflexivity | exact IH].
Qed.

Lemma dict_get_set_ne k k' (v : V) d :
  k <> k' -> dict_get k' (dict_set k v d) = dict_get k' d.
Proof.
  intros Hne. induction d as [|[k0 v0] d IH]; simpl.
  - apply String.eqb_neq in Hne. rewrite Hne. reflexivity.
  - destruct (String.eqb k0 k) eqn:E; simpl.
    + apply String.eqb_eq in E. subst k0.
      apply String.eqb_neq in Hne. rewrite Hne. reflexivity.
    + destruct (String.eqb k0 k'); [reflexivity | exact IH].
Qed.

Lemma dict_get_set k k' (v : V) d :
  dict_get k' (dict_set k v d)
  = if String.eqb k k' then Some v else dict_get k' d.
Proof.
  destruct (String.eqb k k') eqn:E.
  - apply String.eqb_eq in E. subst. apply dict_get_set_eq.
  - apply String.eqb_neq in E. apply dict_get_set_ne, E.
Qed.

(** After [d.update(l)] a key holds the value of its last pair in [l], and
    its value in [d] when [l] does not mention it. *)
Lemma dict_get_update k l : forall d,
  dict_get k (dict_update d l)
  = match last_value k l with
    | Some v => Some v
    | None => dict_get k d
    end.
Proof.
  unfold dict_update. induction l as [|[k' v'] l IH]; intros d; simpl; [reflexivity|].
  rewrite IH. destruct (last_value k l); [reflexivity|].
  rewrite dict_get_set. destruct (String.eqb k' k); reflexivity.
Qed.

Lemma dict_get_dict k l : dict_get k (dict l) = last_value k l.
Proof. unfold dict. rewrite dict_get_update. destruct (last_value k l); reflexivity. Qed.

Lemma last_value_none k l : dict_get k l = None -> last_value k l = None.
Proof.
  induction l as [|[k' v'] l IH]; simpl; [reflexivity|].
  destruct (String.eqb k' k); [discriminate|]. intros H. rewrite (IH H). reflexivity.
Qed.

Lemma last_value_app k l1 l2 (v : V) :
  dict_get k l2 = None -> last_value k (l1 ++ (k, v) :: l2) = Some v.
Proof.
  intros H. induction l1 as [|[k' v'] l1 IH]; simpl.
  - rewrite (last_value_none _ _ H), String.eqb_refl. reflexivity.
  - rewrite IH. reflexivity.
Qed.

Lemma dict_set_key_inv k (v : V) d x :
  x ∈ map fst (dict_set k v d) -> x = k \/ x ∈ map fst d.
Proof.
  induction d as [|[k' v'] d IH]; simpl.
  - intros H. apply list_elem_of_singleton in H. auto.
  - destruct (String.eqb k' k); simpl; intros H; apply elem_of_cons in H as [->|H].
    + right. apply elem_of_cons. auto.
    + right. apply elem_of_cons. auto.
    + right. apply elem_of_cons. auto.
    + destruct (IH H) as [->|Hin]; [auto|]. right. apply elem_of_cons. auto.
Qed.

Lemma dict_set_keys k (v : V) d :
  NoDup (map fst d) -> NoDup (map fst (dict_set k v d)).
Proof.
  induction d as [|[k' v'] d IH]; simpl; intros Hd.
  - apply NoDup_singleton.
  - apply NoDup_cons in Hd as [Hnot Hrest].
    destruct (String.eqb k' k) eqn:E; simpl; apply NoDup_cons; split; auto.
    intros Hin. apply dict_set_key_inv in Hin as [->|Hin]; [|auto].
    rewrite String.eqb_refl in E. discriminate.
Qed.

Lemma dict_update_keys l : forall d,
  NoDup (map fst d) -> NoDup (map fst (dict_update d l)).
Proof.
  unfold dict_update. induction l as [|[k v] l IH]; intros d Hd; simpl; [exact Hd|].
  apply IH, dict_set_keys, Hd.
Qed.

Lemma dict_get_setdefault k k' (v : V) d :
  dict_get k' (dict_setdefault k v d)
  = match dict_get k' d with
    | Some w => Some w
    | None => if String.eqb k k' then Some v else None
    end.
Proof.
  unfold dict_setdefault. destruct (dict_get k d) eqn:E.
  - destruct (dict_get k' d) eqn:E'; [reflexivity|].
    destruct (String.eqb k k') eqn:Ek; [|reflexivity].
    apply String.eqb_eq in Ek. congruence.
  - rewrite dict_get_set. destruct (String.eqb k k') eqn:Ek.
    + apply String.eqb_eq in Ek. subst. rewrite E. reflexivity.
    + destruct (dict_get k' d); reflexivity.
Qed.

Lemma dict_get_filter k (p : string -> bool) d :
  dict_get k (List.filter (fun kv => p (fst kv)) d)
  = if p k then dict_get k d else None.
Proof.
  induction d as [|[k' v'] d IH]; simpl.
  - destruct (p k); reflexivity.
  - destruct (p k') eqn:Ep; simpl.
    + destruct (String.eqb k' k) eqn:E; [|exact IH].
      apply String.eqb_eq in E. subst. rewrite Ep. reflexivity.
    + rewrite IH. destruct (String.eqb k' k) eqn:E; [|reflexivity].
      apply String.eqb_eq in E. subst. rewrite Ep. reflexivity.
Qed.

End DictFacts.

(** ** The registry *)

Lemma all_pushers_unfold :
  all_pushers
  = <["wirepusher" := WirePusher]>
      (<["wechat" := Wechat]> (<["telegram" := Telegram]> (<["webhook" := Webhook]> ∅))).
Proof. reflexivity. Qed.

Lemma all_pushers_lookup name cls :
  all_pushers !! name = Some cls ->
  (name = "webhook" /\ cls = Webhook) \/ (name = "telegram" /\ cls = Telegram)
  \/ (name = "wechat" /\ cls = Wechat) \/ (name = "wirepusher" /\ cls = WirePusher).
Proof.
  rewrite all_pushers_unfold. intros H.
  repeat (apply lookup_insert_Some in H as [[<- <-]|[_ H]]; [tauto|]).
  rewrite lookup_empty in H. discriminate.
Qed.

Lemma all_pushers_pushers : registry_pushers all_pushers.
Proof.
  intros name cls H.
  destruct (all_pushers_lookup _ _ H) as [[_ ->]|[[_ ->]|[[_ ->]|[_ ->]]]]; reflexivity.
Qed.

Lemma register_pusher_accepted reg a :
  accepted a = true ->
  register_pusher reg a = inr (<[get_cls_name (arg_class a) := arg_class a]> reg).
Proof. destruct a as [cls|o]; simpl; [reflexivity|]. intros ->. reflexivity. Qed.

Lemma register_pusher_keeps_pushers reg a reg' :
  registry_pushers reg -> cls_is_pusher (arg_class a) = true ->
  register_pusher reg a = inr reg' -> registry_pushers reg'.
Proof.
  intros Hreg Hp H. rewrite register_pusher_accepted in H.
  - injection H as <-. intros name cls Hl.
    apply lookup_insert_Some in Hl as [[_ <-]|[_ Hl]]; [exact Hp | eapply Hreg, Hl].
  - destruct a; [reflexivity | exact Hp].
Qed.

(** ** [get_pusher] *)

Section GetPusherFacts.

Variable chk : Stdlib.

Implicit Types (reg : gmap string PyClass) (uri : string) (r : ParseResult).

(** [urlsplit] raises nothing but [ValueError]. *)
Lemma _check_bracketed_netloc_raises nl e :
  _check_bracketed_netloc chk nl = inl e -> exists msg, e = Exc ValueError (ArgStr msg).
Proof.
  unfold _check_bracketed_netloc, _check_bracketed_host, raise.
  destruct (partition "[" _) as [[before bracketed]|].
  - destruct (nonempty before); [intros [= <-]; eauto|].
    destruct (partition "]" bracketed) as [[h p]|].
    + destruct (_ && _); [intros [= <-]; eauto|].
      destruct (bracketed_host_error chk h); [intros [= <-]; eauto | discriminate].
    + destruct (_ && _); [intros [= <-]; eauto|].
      destruct (bracketed_host_error chk bracketed); [intros [= <-]; eauto | discriminate].
  - destruct (bracketed_host_error chk _); [intros [= <-]; eauto | discriminate].
Qed.

Lemma split_netloc_raises url e :
  split_netloc chk url = inl e -> exists msg, e = Exc ValueError (ArgStr msg).
Proof.
  unfold split_netloc. destruct (String.prefix "//" url); [|discriminate].
  destruct (_splitnetloc url 2) as [nl rest].
  destruct (_ || _); [intros [= <-]; unfold raise; eauto|].
  destruct (_ && _); simpl; [|discriminate].
  destruct (_check_bracketed_netloc chk nl) as [e'|[]] eqn:E; simpl; [|discriminate].
  intros [= <-]. eapply _check_bracketed_netloc_raises, E.
Qed.

Lemma _checknetloc_raises nl e :
  _checknetloc chk nl = inl e -> exists msg, e = Exc ValueError (ArgStr msg).
Proof.
  unfold _checknetloc, raise.
  destruct (_ || _); [discriminate|].
  destruct (String.eqb _ _); [discriminate|].
  destruct (existsb _ _); [intros [= <-]; eauto | discriminate].
Qed.

Lemma urlparse_raises uri e :
  urlparse chk uri = inl e -> exists msg, e = Exc ValueError (ArgStr msg).
Proof.
  unfold urlparse, urlsplit.
  destruct (split_scheme _) as [sch url].
  destruct (split_netloc chk url) as [e'|[nl u]] eqn:E; simpl.
  - intros [= <-]. eapply split_netloc_raises, E.
  - destruct (_checknetloc chk nl) as [e'|[]] eqn:E'; simpl.
    { intros [= <-]. eapply _checknetloc_raises, E'. }
    match goal with
    | |- context [let '(_, _) := ?x in _] => destruct x as [u' ps]
    end.
    discriminate.
Qed.

Lemma get_pusher_unfold reg uri :
  get_pusher chk reg uri
  = match urlparse chk uri with
    | inl e => inl e
    | inr r =>
        if negb (String.eqb (scheme r) "knotify")
        then raise KnotifyException "Invalid url scheme"
        else match reg !! str_lower chk (netloc r) with
             | None => raise KnotifyException ("Invalid class name " +:+ netloc r)
             | Some cls =>
                 match py_call cls (dict_map VStr (dict (parse_qsl (query r)))) with
                 | inr pusher => inr pusher
                 | inl e => inl (Exc KnotifyException (ArgExn e))
                 end
             end
    end.
Proof. reflexivity. Qed.

(** Once the scheme and the registry checks have passed, the outcome is
    that of the constructor, with its exception wrapped. *)
Lemma get_pusher_found reg uri r cls :
  urlparse chk uri = inr r -> scheme r = "knotify" ->
  reg !! str_lower chk (netloc r) = Some cls ->
  get_pusher chk reg uri
  = match py_call cls (dict_map VStr (dict (parse_qsl (query r)))) with
    | inr pusher => inr pusher
    | inl e => inl (Exc KnotifyException (ArgExn e))
    end.
Proof. intros Hp Hs Hl. rewrite get_pusher_unfold, Hp, Hs, Hl. reflexivity. Qed.

Lemma py_call_type cls kwargs p : py_call cls kwargs = inr p -> ob_type p = cls.
Proof.
  unfold py_call. destruct (cls_init cls kwargs); simpl; [discriminate|].
  intros [= <-]. reflexivity.
Qed.

(** The five outcomes of [get_pusher]: the parser's [ValueError], the two
    checks, the constructor's exception wrapped, or the instance made. *)
Lemma get_pusher_outcome reg uri :
  (exists msg, get_pusher chk reg uri = raise ValueError msg)
  \/ get_pusher chk reg uri = raise KnotifyException "Invalid url scheme"
  \/ (exists r, urlparse chk uri = inr r
                /\ get_pusher chk reg uri
                   = raise KnotifyException ("Invalid class name " +:+ netloc r))
  \/ (exists e, get_pusher chk reg uri = inl (Exc KnotifyException (ArgExn e)))
  \/ (exists r cls p, urlparse chk uri = inr r
                      /\ reg !! str_lower chk (netloc r) = Some cls /\ ob_type p = cls
                      /\ get_pusher chk reg uri = inr p).
Proof.
  rewrite get_pusher_unfold.
  destruct (urlparse chk uri) as [e|r] eqn:E.
  - left. destruct (urlparse_raises _ _ E) as [msg ->]. eauto.
  - destruct (negb _); [auto|].
    destruct (reg !! str_lower chk (netloc r)) as [cls|] eqn:El; [|eauto 6].
    destruct (py_call cls _) as [e|p] eqn:Ec; [eauto 6|].
    do 4 right. exists r, cls, p. eauto using py_call_type.
Qed.

End GetPusherFacts.

(** ** The fields of a query *)

Lemma partition_inv c (s n w : string) :
  partition c s = Some (n, w) -> s = n +:+ String c w /\ str_mem c n = false.
Proof.
  revert n. induction s as [|a s IH]; simpl; intros n; [discriminate|].
  destruct (Ascii.eqb a c) eqn:E.
  - apply Ascii.eqb_eq in E. subst a. intros [= <- <-]. split; reflexivity.
  - destruct (partition c s) as [[l r]|]; [|discriminate].
    intros [= <- <-]. destruct (IH l eq_refl) as [-> Hl].
    simpl. rewrite E, Hl. split; reflexivity.
Qed.

Lemma partition_at c (n w : string) :
  str_mem c n = false -> partition c (n +:+ String c w) = Some (n, w).
Proof.
  induction n as [|a n IH]; simpl.
  - rewrite Ascii.eqb_refl. reflexivity.
  - intros H. apply orb_false_iff in H as [Ha Hn]. rewrite Ha, (IH Hn). reflexivity.
Qed.

Lemma parse_qsl_split (qs : string) : parse_qsl qs = flat_map parse_field (split "&" qs).
Proof. destruct qs; reflexivity. Qed.

(** A field gives at most one pair. *)
Lemma parse_field_cases (f : string) :
  parse_field f = [] \/ exists k v, parse_field f = [(k, v)].
Proof.
  unfold parse_field. destruct (negb _); [auto|].
  destruct (partition "=" f) as [[n w]|]; [|auto].
  destruct (nonempty w); eauto.
Qed.

Lemma parse_field_gives (f k v : string) :
  parse_field f = [(k, v)] <-> field_gives f k v.
Proof.
  unfold parse_field, field_gives, unquote_plus. split.
  - destruct (nonempty f); simpl; [|discriminate].
    destruct (partition "=" f) as [[n w]|] eqn:E; [|discriminate].
    destruct (nonempty w) eqn:Ew; [|discriminate].
    intros [= <- <-]. apply partition_inv in E as [-> Hn].
    exists n, w. repeat split; [exact Hn|]. intros ->. discriminate.
  - intros (n & w & -> & Hn & Hw & <- & <-).
    change (n +:+ "=" +:+ w) with (n +:+ String "=" w).
    rewrite (partition_at "=" n w Hn).
    replace (nonempty (n +:+ String "=" w)) with true by (destruct n; reflexivity).
    destruct w; [contradiction|]. reflexivity.
Qed.

Lemma last_value_app_eq {V : Type} (k : string) (l1 l2 : list (string * V)) :
  last_value k (l1 ++ l2)
  = match last_value k l2 with
    | Some w => Some w
    | None => last_value k l1
    end.
Proof.
  induction l1 as [|[k' v'] l1 IH]; simpl.
  - destruct (last_value k l2); reflexivity.
  - rewrite IH. destruct (last_value k l2); reflexivity.
Qed.

(** No pair of the fields has the key [k] exactly when no field gives a
    pair for [k]. *)
Lemma last_value_fields_none (k : string) (fields : list string) :
  last_value k (flat_map parse_field fields) = None
  <-> Forall (fun f => forall v, ~ field_gives f k v) fields.
Proof.
  induction fields as [|f fields IH]; simpl.
  - split; [constructor | reflexivity].
  - rewrite last_value_app_eq. split.
    + destruct (last_value k (flat_map parse_field fields)) eqn:E; [discriminate|].
      intros H. constructor; [|apply IH; reflexivity].
      intros v Hg. apply parse_field_gives in Hg. rewrite Hg in H.
      simpl in H. rewrite String.eqb_refl in H. discriminate.
    + intros H. apply Forall_cons in H as [Hf Ht]. rewrite (proj2 IH Ht).
      destruct (parse_field_cases f) as [->|(k' & v' & Hp)]; [reflexivity|].
      rewrite Hp. simpl. destruct (String.eqb k' k) eqn:Ek; [|reflexivity].
      apply String.eqb_eq in Ek. subst k'.
      exfalso. apply (Hf v'), parse_field_gives, Hp.
Qed.

(** The pairs of the fields hold [v] last for the key [k] exactly when the
    last field that gives a pair for [k] gives [(k, v)]. *)
Lemma last_value_fields (k : string) (fields : list string) : forall v,
  last_value k (flat_map parse_field fields) = Some v
  <-> exists before f after,
        fields = before ++ f :: after
        /\ field_gives f k v
        /\ Forall (fun f' => forall v', ~ field_gives f' k v') after.
Proof.
  induction fields as [|f fields IH]; intros v; simpl.
  - split; [discriminate|].
    intros (before & f & after & H & _). destruct before; discriminate.
  - rewrite last_value_app_eq.
    destruct (last_value k (flat_map parse_field fields)) as [w|] eqn:E.
    + split.
      * intros [= ->].
        destruct (proj1 (IH v) eq_refl) as (before & f0 & after & -> & Hg & Ha).
        exists (f :: before), f0, after. auto.
      * intros (before & f0 & after & Hf & Hg & Ha).
        destruct before as [|b before]; simpl in Hf; injection Hf as <- ->.
        -- apply last_value_fields_none in Ha. congruence.
        -- apply IH. exists before, f0, after. auto.
    + split.
      * intros H. destruct (parse_field_cases f) as [Hn|(k' & v' & Hp)];
          [rewrite Hn in H; discriminate|].
        rewrite Hp in H. simpl in H.
        destruct (String.eqb k' k) eqn:Ek; [|discriminate].
        apply String.eqb_eq in Ek. subst k'. injection H as ->.
        exists [], f, fields. split; [reflexivity|].
        split; [apply parse_field_gives, Hp | apply last_value_fields_none, E].
      * intros (before & f0 & after & Hf & Hg & Ha).
        destruct before as [|b before]; simpl in Hf; injection Hf as <- ->.
        -- apply parse_field_gives in Hg. rewrite Hg. simpl.
           rewrite String.eqb_refl. reflexivity.
        -- assert (Hv : @None string = Some v)
             by (apply IH; exists before, f0, after; auto).
           discriminate Hv.
Qed.

(** * The claims *)

Section Decode.

Variable chk : Stdlib.

Implicit Types (reg : gmap string PyClass) (uri : string) (r : ParseResult).

(** C3, as the code has it.  A URI that [urlparse] accepts and whose
    parsed scheme is not [knotify] makes [get_pusher] raise
    [KnotifyException("Invalid url scheme")], whatever the registry holds:
    the registry is not consulted.  A URI that [urlparse] rejects never
    reaches the scheme check: [get_pusher] raises the parser's
    [ValueError], as it is. *)
Theorem get_pusher_invalid_scheme reg uri :
  (forall r, urlparse chk uri = inr r ->
             scheme r <> "knotify" ->
             get_pusher chk reg uri = raise KnotifyException "Invalid url scheme")
  /\ (forall e, urlparse chk uri = inl e ->
                get_pusher chk reg uri = inl e
                /\ exists msg, e = Exc ValueError (ArgStr msg)).
Proof.
  split.
  - intros r Hp Hs. rewrite get_pusher_unfold, Hp.
    apply String.eqb_neq in Hs. rewrite Hs. reflexivity.
  - intros e Hp. rewrite get_pusher_unfold, Hp.
    split; [reflexivity | exact (urlparse_raises chk uri e Hp)].
Qed.

(** C4, as the code has it.  When [urlparse] accepts the URI with scheme
    [knotify] and its authority, in lower case, is not a key of the
    registry, [get_pusher] raises
    [KnotifyException("Invalid class name " + authority)].  The registry is
    consulted at the lower-cased authority only: a second URI whose
    authority differs from the first in letter case alone fails in the same
    way when the name is unknown, and otherwise gives the same result as
    the first when their queries agree.  (A URI that [urlparse] rejects
    raises the parser's [ValueError] before any lookup.) *)
Theorem get_pusher_unknown_backend reg uri r :
  urlparse chk uri = inr r ->
  scheme r = "knotify" ->
  (reg !! str_lower chk (netloc r) = None ->
   get_pusher chk reg uri
   = raise KnotifyException ("Invalid class name " +:+ netloc r))
  /\ (forall uri' r',
        urlparse chk uri' = inr r' ->
        scheme r' = "knotify" ->
        str_lower chk (netloc r') = str_lower chk (netloc r) ->
        (reg !! str_lower chk (netloc r) = None ->
         get_pusher chk reg uri'
         = raise KnotifyException ("Invalid class name " +:+ netloc r'))
        /\ (is_Some (reg !! str_lower chk (netloc r)) ->
            query r' = query r ->
            get_pusher chk reg uri' = get_pusher chk reg uri)).
Proof.
  intros Hp Hs. split.
  - intros Hl. rewrite get_pusher_unfold, Hp, Hs, Hl. reflexivity.
  - intros uri' r' Hp' Hs' Hn. split.
    + intros Hl. rewrite get_pusher_unfold, Hp', Hs', Hn, Hl. reflexivity.
    + intros [cls Hl] Hq.
      rewrite (get_pusher_found chk reg uri r cls Hp Hs Hl).
      rewrite <- Hn in Hl.
      rewrite (get_pusher_found chk reg uri' r' cls Hp' Hs' Hl), Hq. reflexivity.
Qed.

(** C5, as the code has it.  Once the scheme and registry checks have
    passed, the looked-up class is called with exactly
    [dict(parse_qsl(query))] as keyword arguments, a mapping from strings
    to strings with distinct keys.  Read on the text of the query, whose fields are separated by
    [&]: the mapping holds [v] under [k] exactly when the last field that
    gives a pair for [k] gives [(k, v)].  Among the fields [n=w] with a
    non-blank [w] the last occurrence of a key wins; a field with a blank
    value, or without [=], gives no pair and replaces nothing, wherever it
    stands. *)
Theorem get_pusher_params reg uri r cls :
  urlparse chk uri = inr r ->
  scheme r = "knotify" ->
  reg !! str_lower chk (netloc r) = Some cls ->
  let params : pydict string := dict (parse_qsl (query r)) in
  get_pusher chk reg uri = wrap_constructor (py_call cls (dict_map VStr params))
  /\ NoDup (map fst params)
  /\ (forall k v,
        dict_get k params = Some v
        <-> exists before f after,
              split "&" (query r) = before ++ f :: after
              /\ field_gives f k v
              /\ Forall (fun f' => forall v', ~ field_gives f' k v') after).
Proof.
  intros Hp Hs Hl params. split; [|split].
  - apply (get_pusher_found chk reg uri r cls Hp Hs Hl).
  - apply dict_update_keys. constructor.
  - intros k v. unfold params.
    rewrite dict_get_dict, parse_qsl_split. apply last_value_fields.
Qed.

(** C10.  A URI that begins with any letter-casing of [knotify] followed
    by a colon passes the scheme check: if it parses, its scheme is
    [knotify], and [get_pusher] does not raise the invalid-scheme error. *)
Theorem get_pusher_scheme_any_case reg (s rest : string) :
  lower s = "knotify" ->
  (forall r, urlparse chk (s +:+ ":" +:+ rest) = inr r -> scheme r = "knotify")
  /\ get_pusher chk reg (s +:+ ":" +:+ rest)
     <> raise KnotifyException "Invalid url scheme".
Proof.
  intros Hs.
  assert (Hshape : scheme_shaped s = true).
  { rewrite <- scheme_shaped_lower, Hs. reflexivity. }
  assert (Hsch : forall r, urlparse chk (s +:+ ":" +:+ rest) = inr r ->
                           scheme r = "knotify").
  { intros r Hr. rewrite <- Hs. apply (urlparse_scheme chk s rest r Hshape Hr). }
  split; [exact Hsch|].
  rewrite get_pusher_unfold.
  destruct (urlparse chk (s +:+ ":" +:+ rest)) as [e|r] eqn:E.
  - destruct (urlparse_raises chk _ _ E) as [msg ->]. discriminate.
  - rewrite (Hsch r eq_refl). simpl.
    destruct (reg !! str_lower chk (netloc r)) as [cls|].
    + destruct (py_call cls _); discriminate.
    + unfold raise. simpl. intros H. inversion H.
Qed.

(** C7.  Registering two accepted arguments whose classes have the same
    lowercase name raises nothing; afterwards the registry holds the
    second class under that name and nothing of the first, and
    [get_pusher] on a URI with that name calls the second class. *)
Theorem register_pusher_last_wins reg (a1 a2 : PyArg) :
  accepted a1 = true -> accepted a2 = true ->
  get_cls_name (arg_class a1) = get_cls_name (arg_class a2) ->
  exists reg1 reg2,
    register_pusher reg a1 = inr reg1
    /\ register_pusher reg1 a2 = inr reg2
    /\ reg2 = <[get_cls_name (arg_class a2) := arg_class a2]> reg
    /\ reg2 !! get_cls_name (arg_class a2) = Some (arg_class a2)
    /\ (forall uri r,
          urlparse chk uri = inr r -> scheme r = "knotify" ->
          str_lower chk (netloc r) = get_cls_name (arg_class a2) ->
          get_pusher chk reg2 uri
          = match py_call (arg_class a2)
                    (dict_map VStr (dict (parse_qsl (query r)))) with
            | inr pusher => inr pusher
            | inl e => inl (Exc KnotifyException (ArgExn e))
            end).
Proof.
  intros H1 H2 Hname.
  exists (<[get_cls_name (arg_class a1) := arg_class a1]> reg).
  exists (<[get_cls_name (arg_class a2) := arg_class a2]> reg).
  split; [apply register_pusher_accepted, H1|].
  split; [rewrite (register_pusher_accepted _ _ H2), Hname; f_equal;
          apply insert_insert_eq|].
  split; [reflexivity|].
  split; [apply lookup_insert_eq|].
  intros uri r Hp Hs Hn. apply (get_pusher_found chk _ uri r _ Hp Hs).
  rewrite Hn. apply lookup_insert_eq.
Qed.

End Decode.

(** ** Pushing *)

Lemma last_value_get {V : Type} (k : string) (l : list (string * V)) :
  NoDup (map fst l) -> last_value k l = dict_get k l.
Proof.
  induction l as [|[k' v'] l IH]; simpl; intros Hd; [reflexivity|].
  apply NoDup_cons in Hd as [Hnot Hrest]. rewrite (IH Hrest).
  destruct (String.eqb k' k) eqn:E; [|destruct (dict_get k l); reflexivity].
  apply String.eqb_eq in E. subst k'.
  destruct (dict_get k l) as [w|] eqn:Eg; [|reflexivity].
  exfalso. apply Hnot. clear - Eg.
  induction l as [|[k0 v0] l IHl]; simpl in *; [discriminate|].
  destruct (String.eqb k0 k) eqn:E0.
  - apply String.eqb_eq in E0. subst. apply elem_of_cons. auto.
  - apply elem_of_cons. auto.
Qed.

Lemma format_Telegram__api (token : string) :
  format Telegram__api "token" token
  = "https://tgbot.lbyczf.com/sendMessage/" +:+ token.
Proof.
  transitivity ("https://tgbot.lbyczf.com/sendMessage/" +:+ token +:+ EmptyString).
  - vm_compute. reflexivity.
  - rewrite append_nil_r. reflexivity.
Qed.

Section Push.

Variables Response SendResult : Type.
Variable session_post : value -> pydict value -> Response.
Variable session_get : value -> pydict value -> Response.
Variable _check_result : Response -> result SendResult.

(** C8.  For every message and extra fields, [Telegram._push] posts to
    the endpoint template with the token substituted, as JSON, the
    dictionary [{"text": message, "parse_mode": "Markdown"}] updated with
    the extra fields: a field of the extras holds the extra's value, and
    [text] and [parse_mode] hold the message and ["Markdown"] unless the
    extras name them. *)
Theorem Telegram_push_request (self : PyObject) (token message : value)
    (kwargs : pydict value) :
  getattr self "token" = inr token ->
  let base := [("text", message); ("parse_mode", VStr "Markdown")] in
  let req_body := dict_update base kwargs in
  Telegram__push session_post _check_result self message kwargs
  = _check_result
      (session_post
         (VStr ("https://tgbot.lbyczf.com/sendMessage/" +:+ py_str token)) req_body)
  /\ (forall k, dict_get k req_body
                = match last_value k kwargs with
                  | Some v => Some v
                  | None => dict_get k base
                  end)
  /\ (dict_get "text" kwargs = None -> dict_get "text" req_body = Some message)
  /\ (dict_get "parse_mode" kwargs = None ->
      dict_get "parse_mode" req_body = Some (VStr "Markdown"))
  /\ (NoDup (map fst kwargs) ->
      forall k v, dict_get k kwargs = Some v -> dict_get k req_body = Some v).
Proof.
  intros Htoken base req_body. repeat split.
  - unfold Telegram__push. rewrite Htoken. simpl bind.
    rewrite format_Telegram__api. reflexivity.
  - intros k. apply dict_get_update.
  - intros H. unfold req_body. rewrite dict_get_update, (last_value_none _ _ H).
    reflexivity.
  - intros H. unfold req_body. rewrite dict_get_update, (last_value_none _ _ H).
    reflexivity.
  - intros Hd k v H. unfold req_body.
    rewrite dict_get_update, (last_value_get _ _ Hd), H. reflexivity.
Qed.

Lemma WirePusher_build_body (pid message : value) (kwargs : pydict value) :
  exists rejected,
    _build_body WirePusher__args
      (dict_setdefault "title" (VStr "Knotify Message")
         (dict_setdefault "id" pid kwargs))
      WirePusher__mandatory [("message", message)]
    = inr (List.filter WirePusher_allowed (WirePusher_kwargs pid message kwargs),
           rejected).
Proof.
  unfold _build_body. cbn [fold_left fst snd].
  fold (WirePusher_kwargs pid message kwargs).
  assert (Hfind : find (fun name =>
                    match dict_get name (WirePusher_kwargs pid message kwargs) with
                    | Some _ => false
                    | None => true
                    end) WirePusher__mandatory = None).
  { unfold WirePusher__mandatory, WirePusher_kwargs. cbn [find].
    rewrite !dict_get_setdefault.
    repeat match goal with
           | |- context [dict_get ?k kwargs] => destruct (dict_get k kwargs)
           end; reflexivity. }
  rewrite Hfind. eexists. reflexivity.
Qed.

(** C9.  [WirePusher._push] always sends its GET request to the fixed
    endpoint; when the extras have no [title] the request's [title] is
    ["Knotify Message"], and when they have no [id] its [id] is the
    instance's [pid].  (An extra that is present is sent as given.) *)
Theorem WirePusher_push_defaults (self : PyObject) (pid message : value)
    (kwargs : pydict value) :
  getattr self "pid" = inr pid ->
  exists req_body,
    WirePusher__push session_get _check_result self message kwargs
    = _check_result (session_get (VStr "https://wirepusher.com/send") req_body)
    /\ (dict_get "title" kwargs = None ->
        dict_get "title" req_body = Some (VStr "Knotify Message"))
    /\ (dict_get "id" kwargs = None -> dict_get "id" req_body = Some pid)
    /\ (forall v, dict_get "title" kwargs = Some v -> dict_get "title" req_body = Some v)
    /\ (forall v, dict_get "id" kwargs = Some v -> dict_get "id" req_body = Some v).
Proof.
  intros Hpid.
  destruct (WirePusher_build_body pid message kwargs) as [rejected Hbody].
  exists (List.filter WirePusher_allowed (WirePusher_kwargs pid message kwargs)).
  split.
  { unfold WirePusher__push. rewrite Hpid. simpl bind. rewrite Hbody. reflexivity. }
  assert (Hget : forall k, existsb (String.eqb k) WirePusher__args = true ->
            dict_get k (List.filter WirePusher_allowed
                          (WirePusher_kwargs pid message kwargs))
            = dict_get k (WirePusher_kwargs pid message kwargs)).
  { intros k Hk. etransitivity.
    - apply (dict_get_filter k (fun k' => existsb (String.eqb k') WirePusher__args)).
    - cbv beta. rewrite Hk. reflexivity. }
  repeat split.
  - intros H. rewrite Hget by reflexivity. unfold WirePusher_kwargs.
    rewrite !dict_get_setdefault, H. reflexivity.
  - intros H. rewrite Hget by reflexivity. unfold WirePusher_kwargs.
    rewrite !dict_get_setdefault, H. reflexivity.
  - intros v H. rewrite Hget by reflexivity. unfold WirePusher_kwargs.
    rewrite !dict_get_setdefault, H. reflexivity.
  - intros v H. rewrite Hget by reflexivity. unfold WirePusher_kwargs.
    rewrite !dict_get_setdefault, H. reflexivity.
Qed.

End Push.

(** ** Encoding and decoding *)

Lemma lower_char_idem c : lower_char (lower_char c) = lower_char c.
Proof. by_ascii c. Qed.

Lemma lower_idem (s : string) : lower (lower s) = lower s.
Proof. unfold lower. induction s as [|c s IH]; simpl; [reflexivity|]. rewrite lower_char_idem, IH. reflexivity. Qed.

(** A query of one field [name=value], both as [quote_plus] writes them,
    parses back to that one pair. *)
Lemma parse_qsl_urlencode_one (name v : string) :
  v <> EmptyString ->
  parse_qsl (quote_plus name +:+ "=" +:+ quote_plus v) = [(name, v)].
Proof.
  intros Hv. unfold parse_qsl.
  assert (Hne : nonempty (quote_plus name +:+ "=" +:+ quote_plus v) = true).
  { destruct (quote_plus name); reflexivity. }
  rewrite Hne.
  rewrite split_absent.
  2:{ rewrite str_all_app. apply andb_true_intro. split.
      - eapply str_all_impl; [apply quoted_not_amp | apply quote_plus_quoted].
      - change ("=" +:+ quote_plus v) with (String "=" (quote_plus v)).
        cbn [str_all]. apply andb_true_intro. split; [reflexivity|].
        eapply str_all_impl; [apply quoted_not_amp | apply quote_plus_quoted]. }
  cbn [flat_map]. unfold parse_field. rewrite Hne. cbn [negb].
  change ("=" +:+ quote_plus v) with (String "=" (quote_plus v)).
  rewrite partition_first
    by (eapply str_all_impl; [apply quoted_not_eq | apply quote_plus_quoted]).
  rewrite (quote_plus_nonempty v Hv), !unquote_plus_quote_plus. reflexivity.
Qed.

Section Encode.

Variable chk : Stdlib.
Variable uri_scheme : string.
Hypothesis uri_scheme_knotify : lower uri_scheme = "knotify".

(** Decoding the canonical URI of an instance of [cls] whose one identity
    field is the non-empty string [v] calls [cls] with that field. *)
Lemma get_pusher_format_uri reg (self : PyObject) (field v : string) :
  v <> EmptyString ->
  str_all host_char (get_cls_name (ob_type self)) = true ->
  str_all is_ascii (get_cls_name (ob_type self)) = true ->
  reg !! get_cls_name (ob_type self) = Some (ob_type self) ->
  get_pusher chk reg (_format_uri uri_scheme self [(field, VStr v)])
  = match py_call (ob_type self) [(field, VStr v)] with
    | inr pusher => inr pusher
    | inl e => inl (Exc KnotifyException (ArgExn e))
    end.
Proof.
  intros Hv Hhost Hascii Hreg. unfold _format_uri, urlencode.
  cbn [map join fst snd py_str].
  assert (Hshape : scheme_shaped uri_scheme = true).
  { rewrite <- scheme_shaped_lower, uri_scheme_knotify. reflexivity. }
  assert (Hq : str_all query_char (quote_plus field +:+ "=" +:+ quote_plus v) = true).
  { rewrite str_all_app. apply andb_true_intro. split.
    - eapply str_all_impl; [apply quoted_query_char | apply quote_plus_quoted].
    - change ("=" +:+ quote_plus v) with (String "=" (quote_plus v)).
      cbn [str_all]. apply andb_true_intro. split; [reflexivity|].
      eapply str_all_impl; [apply quoted_query_char | apply quote_plus_quoted]. }
  pose proof (urlparse_canonical chk uri_scheme _ _ Hshape Hhost Hascii Hq) as Hparse.
  rewrite (get_pusher_found chk reg _ _ (ob_type self) Hparse).
  - cbn [query]. rewrite (parse_qsl_urlencode_one field v Hv). reflexivity.
  - cbn [scheme]. exact uri_scheme_knotify.
  - cbn [netloc]. unfold str_lower. rewrite Hascii.
    unfold get_cls_name at 1. rewrite lower_idem. exact Hreg.
Qed.

End Encode.

(** C1, as the code has it.  For each of the four registered pushers and
    every non-empty string [v] for its identity field (with or without a
    [show_message] argument): the construction succeeds, its [uri] is
    defined, and [get_pusher] on that URI returns an instance of the same
    class whose identity field is again [v].  The scheme of generated URIs
    may be any letter-casing of [knotify]. *)
Theorem uri_roundtrip (chk : Stdlib) (uri_scheme : string)
    (reg : gmap string PyClass) (b : backend) (v : string)
    (show_message : option value) :
  lower uri_scheme = "knotify" ->
  reg !! get_cls_name (backend_class b) = Some (backend_class b) ->
  v <> EmptyString ->
  exists p u p',
    py_call (backend_class b) (construct_kwargs b (VStr v) show_message) = inr p
    /\ backend_uri uri_scheme b p = inr u
    /\ get_pusher chk reg u = inr p'
    /\ ob_type p' = ob_type p
    /\ getattr p' (identity_field b) = getattr p (identity_field b)
    /\ getattr p (identity_field b) = inr (VStr v).
Proof.
  intros Hsch Hreg Hv.
  set (flag := match show_message with Some x => x | None => VBool true end).
  set (p := {| ob_type := backend_class b;
               ob_attrs := [("show_message", flag); (identity_field b, VStr v)] |}).
  set (p' := {| ob_type := backend_class b;
                ob_attrs := [("show_message", VBool true);
                             (identity_field b, VStr v)] |}).
  exists p, (_format_uri uri_scheme p [(identity_field b, VStr v)]), p'.
  split; [destruct b, show_message; reflexivity|].
  split; [destruct b; reflexivity|].
  split.
  { rewrite (get_pusher_format_uri chk uri_scheme Hsch reg p _ v Hv).
    - destruct b; reflexivity.
    - destruct b; reflexivity.
    - destruct b; reflexivity.
    - exact Hreg. }
  split; [reflexivity|].
  split; destruct b; reflexivity.
Qed.

(** ** Registration of a class is unchecked *)

Lemma register_pusher_spec (reg : gmap string PyClass) (a : PyArg) :
  register_pusher reg a
  = if accepted a
    then inr (<[get_cls_name (arg_class a) := arg_class a]> reg)
    else raise KnotifyException ("Invalid pusher type " +:+ class_repr (arg_class a)).
Proof. destruct a as [cls|o]; simpl; [reflexivity|]. destruct (cls_is_pusher _); reflexivity. Qed.

(** An instance of a class that is not a pusher is refused. *)
Lemma register_pusher_rejects_instance (reg : gmap string PyClass) (o : PyObject) :
  cls_is_pusher (ob_type o) = false ->
  register_pusher reg (AInstance o)
  = raise KnotifyException ("Invalid pusher type " +:+ class_repr (ob_type o)).
Proof. intros H. simpl. rewrite H. reflexivity. Qed.

(** C2, where the code departs from it.  [register_pusher] registers every
    class it is given, pusher or not: the builtin [object], which is not a
    subclass of [BasePusher], is stored under ["object"] without an error,
    and [get_pusher] then returns an [object] instance, which is no
    pusher.  (Only an instance is checked: see
    [register_pusher_rejects_instance].) *)
Theorem register_pusher_class_unchecked :
  cls_is_pusher object_class = false
  /\ register_pusher all_pushers (AClass object_class)
     = inr (<["object" := object_class]> all_pushers)
  /\ get_pusher accept_bracketed_host (<["object" := object_class]> all_pushers)
       "knotify://object"
     = inr {| ob_type := object_class; ob_attrs := [] |}.
Proof. repeat split. Qed.

(** C6, where the code departs from it.  [get_pusher] is declared to
    return a [BasePusher], and C6 says it never returns anything else.  In
    the registry reached by [register_pusher(object)] the URI
    [Knotify://Object] passes the scheme check and the registry check, the
    constructor raises nothing, and [get_pusher] returns a plain [object],
    which is no pusher.  The defect is that of C2: the class branch of
    [register_pusher] stores a class unchecked, and [get_pusher] relies on
    the registry holding pushers only. *)
Theorem get_pusher_returns_non_pusher :
  register_pusher all_pushers (AClass object_class)
  = inr (<["object" := object_class]> all_pushers)
  /\ urlparse accept_bracketed_host "Knotify://Object"
     = inr {| scheme := "knotify"; netloc := "Object"; path := EmptyString;
              params := EmptyString; query := EmptyString;
              fragment := EmptyString |}
  /\ (<["object" := object_class]> all_pushers) !! str_lower accept_bracketed_host "Object"
     = Some object_class
  /\ py_call object_class [] = inr {| ob_type := object_class; ob_attrs := [] |}
  /\ get_pusher accept_bracketed_host (<["object" := object_class]> all_pushers)
       "Knotify://Object"
     = inr {| ob_type := object_class; ob_attrs := [] |}
  /\ cls_is_pusher object_class = false.
Proof. repeat split. Qed.

(** ** Instances of the claims at concrete inputs *)

(** C1 fails for an empty identity value: [Webhook(url=EmptyString)] is constructed,
    its URI is [knotify://webhook?url=], and decoding that URI raises,
    because [parse_qsl] drops a field whose value is blank. *)
Lemma uri_roundtrip_empty_value :
  py_call Webhook (construct_kwargs BWebhook (VStr EmptyString) None) = inr Webhook_empty_url
  /\ backend_uri "knotify" BWebhook Webhook_empty_url = inr "knotify://webhook?url="
  /\ get_pusher accept_bracketed_host all_pushers "knotify://webhook?url="
     = inl (Exc KnotifyException
              (ArgExn (Exc TypeError
                 (ArgStr "Webhook.__init__() missing 1 required positional argument: 'url'")))).
Proof. repeat split. Qed.

Lemma uri_roundtrip_witness :
  exists p u p',
    py_call Telegram (construct_kwargs BTelegram (VStr "12 3:ab+c/d") (Some (VBool false)))
    = inr p
    /\ backend_uri "Knotify" BTelegram p = inr u
    /\ get_pusher accept_bracketed_host all_pushers u = inr p'
    /\ ob_type p' = ob_type p
    /\ getattr p' "token" = getattr p "token"
    /\ getattr p "token" = inr (VStr "12 3:ab+c/d").
Proof.
  apply (uri_roundtrip accept_bracketed_host "Knotify" all_pushers BTelegram
           "12 3:ab+c/d" (Some (VBool false)));
    [reflexivity | reflexivity | discriminate].
Defined.

(** C3 fails on a URI that the parser rejects: the scheme of the URI is
    [wrongscheme], not [knotify], and [get_pusher] raises the [ValueError]
    of [urlparse], not the invalid-scheme error. *)
Lemma get_pusher_invalid_scheme_unparsable :
  split_scheme "wrongscheme://[webhook?url=a" = ("wrongscheme", "//[webhook?url=a")
  /\ get_pusher accept_bracketed_host all_pushers "wrongscheme://[webhook?url=a"
     = raise ValueError "Invalid IPv6 URL"
  /\ get_pusher accept_bracketed_host all_pushers "wrongscheme://[webhook?url=a"
     <> raise KnotifyException "Invalid url scheme".
Proof. repeat split. discriminate. Qed.

Lemma get_pusher_invalid_scheme_witness :
  get_pusher accept_bracketed_host all_pushers "wrongscheme://webhook?url=http://a.b/c"
  = raise KnotifyException "Invalid url scheme".
Proof.
  apply (proj1 (get_pusher_invalid_scheme accept_bracketed_host all_pushers
                  "wrongscheme://webhook?url=http://a.b/c")
           {| scheme := "wrongscheme"; netloc := "webhook"; path := EmptyString;
              params := EmptyString; query := "url=http://a.b/c";
              fragment := EmptyString |});
    [reflexivity | discriminate].
Defined.

(** C4 fails in the same way: the scheme is [knotify], the authority, an
    opening bracket followed by [nonexistent], is no key of the registry,
    and [get_pusher] raises the [ValueError] of [urlparse], not the
    unknown-backend error. *)
Lemma get_pusher_unknown_backend_unparsable :
  split_scheme "knotify://[nonexistent?x=1" = ("knotify", "//[nonexistent?x=1")
  /\ _splitnetloc "//[nonexistent?x=1" 2 = ("[nonexistent", "?x=1")
  /\ all_pushers !! lower "[nonexistent" = None
  /\ get_pusher accept_bracketed_host all_pushers "knotify://[nonexistent?x=1"
     = raise ValueError "Invalid IPv6 URL"
  /\ get_pusher accept_bracketed_host all_pushers "knotify://[nonexistent?x=1"
     <> raise KnotifyException "Invalid class name [nonexistent".
Proof. repeat split. discriminate. Qed.

Lemma get_pusher_unknown_backend_witness :
  get_pusher accept_bracketed_host all_pushers "knotify://nonexistent?x=1"
  = raise KnotifyException "Invalid class name nonexistent"
  /\ get_pusher accept_bracketed_host all_pushers "knotify://NonExistent?y=2"
     = raise KnotifyException "Invalid class name NonExistent".
Proof.
  destruct (get_pusher_unknown_backend accept_bracketed_host all_pushers
              "knotify://nonexistent?x=1"
              {| scheme := "knotify"; netloc := "nonexistent"; path := EmptyString; params := EmptyString;
                 query := "x=1"; fragment := EmptyString |} eq_refl eq_refl) as [H1 H2].
  split; [exact (H1 eq_refl)|].
  exact (proj1 (H2 "knotify://NonExistent?y=2"
                   {| scheme := "knotify"; netloc := "NonExistent"; path := EmptyString; params := EmptyString;
                      query := "y=2"; fragment := EmptyString |} eq_refl eq_refl eq_refl) eq_refl).
Defined.

(** C5 fails when the last occurrence of a key has a blank value: in
    [token=foo&token=] the last [token] is blank, and the mapping holds
    [foo], with which [Telegram] is constructed. *)
Lemma get_pusher_params_blank_last :
  split "&" "token=foo&token=" = ["token=foo"; "token="]
  /\ dict (parse_qsl "token=foo&token=") = [("token", "foo")]
  /\ get_pusher accept_bracketed_host all_pushers "knotify://telegram?token=foo&token="
     = inr (backend_instance BTelegram (VStr "foo") (VBool true)).
Proof. repeat split. Qed.

Lemma get_pusher_params_witness :
  dict_get "url" (dict (parse_qsl "url=a&show_message=no&url=b&url=")) = Some "b".
Proof.
  destruct (get_pusher_params accept_bracketed_host all_pushers
              "knotify://webhook?url=a&show_message=no&url=b&url="
              {| scheme := "knotify"; netloc := "webhook"; path := EmptyString;
                 params := EmptyString;
                 query := "url=a&show_message=no&url=b&url=";
                 fragment := EmptyString |}
              Webhook eq_refl eq_refl eq_refl) as (_ & _ & H).
  apply H. exists ["url=a"; "show_message=no"], "url=b", ["url="].
  split; [reflexivity|]. split.
  - exists "url", "b". repeat split. discriminate.
  - constructor; [|constructor].
    intros v' Hg. apply parse_field_gives in Hg. discriminate Hg.
Defined.

Lemma get_pusher_scheme_any_case_witness :
  get_pusher accept_bracketed_host all_pushers "KnOtIfY://telegram?token=foo"
  <> raise KnotifyException "Invalid url scheme".
Proof.
  exact (proj2 (get_pusher_scheme_any_case accept_bracketed_host all_pushers
                  "KnOtIfY" "//telegram?token=foo" eq_refl)).
Defined.

Lemma register_pusher_last_wins_witness :
  exists reg1 reg2,
    register_pusher all_pushers (AClass Telegram) = inr reg1
    /\ register_pusher reg1
         (AInstance {| ob_type := Telegram_upper; ob_attrs := [] |}) = inr reg2
    /\ reg2 !! "telegram" = Some Telegram_upper.
Proof.
  destruct (register_pusher_last_wins accept_bracketed_host all_pushers
              (AClass Telegram)
              (AInstance {| ob_type := Telegram_upper; ob_attrs := [] |})
              eq_refl eq_refl eq_refl) as (reg1 & reg2 & H1 & H2 & _ & H4 & _).
  exists reg1, reg2. repeat split; assumption.
Defined.

Lemma Telegram_push_request_witness :
  Telegram__push echo inr
    {| ob_type := Telegram;
       ob_attrs := [("show_message", VBool true); ("token", VStr "tok")] |}
    (VStr "hello") [("disable_notification", VBool true)]
  = inr (VStr "https://tgbot.lbyczf.com/sendMessage/tok",
         [("text", VStr "hello"); ("parse_mode", VStr "Markdown");
          ("disable_notification", VBool true)]).
Proof.
  exact (proj1 (Telegram_push_request _ _ echo inr
                  {| ob_type := Telegram;
                     ob_attrs := [("show_message", VBool true); ("token", VStr "tok")] |}
                  (VStr "tok") (VStr "hello") [("disable_notification", VBool true)]
                  eq_refl)).
Defined.

Lemma WirePusher_push_defaults_witness :
  exists req_body,
    WirePusher__push echo inr
      {| ob_type := WirePusher;
         ob_attrs := [("show_message", VBool true); ("pid", VStr "dev1")] |}
      (VStr "hello") [("type", VStr "alert")]
    = inr (VStr "https://wirepusher.com/send", req_body)
    /\ dict_get "title" req_body = Some (VStr "Knotify Message")
    /\ dict_get "id" req_body = Some (VStr "dev1").
Proof.
  destruct (WirePusher_push_defaults _ _ echo inr
              {| ob_type := WirePusher;
                 ob_attrs := [("show_message", VBool true); ("pid", VStr "dev1")] |}
              (VStr "dev1") (VStr "hello") [("type", VStr "alert")] eq_refl)
    as (req_body & H1 & H2 & H3 & _).
  exists req_body. split; [exact H1|]. split; [exact (H2 eq_refl) | exact (H3 eq_refl)].
Defined.

(** ** The examples of the specification *)

Example get_pusher_docstring_example :
  get_pusher accept_bracketed_host all_pushers "Knotify://telegram?token=foo"
  = inr {| ob_type := Telegram;
           ob_attrs := [("show_message", VBool true); ("token", VStr "foo")] |}.
Proof. reflexivity. Qed.

Example get_pusher_missing_parameter :
  get_pusher accept_bracketed_host all_pushers "knotify://wechat"
  = inl (Exc KnotifyException
           (ArgExn (Exc TypeError
              (ArgStr "Wechat.__init__() missing 1 required positional argument: 'sckey'")))).
Proof. reflexivity. Qed.

Example _build_body_drops_unknown :
  _build_body ["a"; "b"] [("a", VInt 1); ("c", VInt 2)] ["a"] []
  = inr ([("a", VInt 1)], ["c"]).
Proof. reflexivity. Qed.

Example _build_body_missing_mandatory :
  _build_body ["a"; "b"] [("c", VInt 2)] ["a"] [] = raise KnotifyException "a".
Proof. reflexivity. Qed.

Example WirePusher_push_example :
  WirePusher__push echo inr
    {| ob_type := WirePusher;
       ob_attrs := [("show_message", VBool true); ("pid", VStr "dev1")] |}
    (VStr "hello") [("type", VStr "alert"); ("colour", VStr "red")]
  = inr (VStr "https://wirepusher.com/send",
         [("type", VStr "alert"); ("id", VStr "dev1");
          ("title", VStr "Knotify Message"); ("message", VStr "hello")]).
Proof. reflexivity. Qed.

(** * Further properties of the code *)

(** ** The constructors *)

Lemma find_none_Forall {A : Type} (f : A -> bool) (l : list A) :
  find f l = None <-> Forall (fun x => f x = false) l.
Proof.
  induction l as [|x l IH]; simpl.
  - split; [constructor | reflexivity].
  - destruct (f x) eqn:E.
    + split; [discriminate|]. intros H. apply Forall_cons in H as [H _]. congruence.
    + rewrite IH. split; [intros H; apply Forall_cons; auto|].
      intros H. apply Forall_cons in H as [_ H]. exact H.
Qed.

Lemma init_keyword_test (field k : string) :
  negb (String.eqb k field || String.eqb k "show_message") = false
  <-> init_keyword field k.
Proof.
  unfold init_keyword. rewrite negb_false_iff, orb_true_iff, !String.eqb_eq. tauto.
Qed.

Lemma bind_init_inr (qualname field : string) (kwargs : pydict value) (a : value * value) :
  bind_init qualname field kwargs = inr a
  <-> Forall (fun kv => init_keyword field (fst kv)) kwargs
      /\ dict_get field kwargs = Some (fst a)
      /\ snd a = show_message_of kwargs.
Proof.
  unfold bind_init, show_message_of.
  destruct (find _ kwargs) as [[k w]|] eqn:Ef.
  - split.
    + destruct (String.eqb k "self"); discriminate.
    + intros [Hall _]. exfalso.
      assert (Hnone : find (fun kv : string * value =>
                 negb (String.eqb (fst kv) field || String.eqb (fst kv) "show_message"))
                 kwargs = None).
      { apply find_none_Forall. eapply Forall_impl; [exact Hall|].
        intros kv Hkv. apply init_keyword_test, Hkv. }
      congruence.
  - apply find_none_Forall in Ef.
    assert (Hall : Forall (fun kv => init_keyword field (fst kv)) kwargs).
    { eapply Forall_impl; [exact Ef|]. intros kv Hkv. apply init_keyword_test, Hkv. }
    destruct (dict_get field kwargs) as [v|].
    + split.
      * intros [= <-]. simpl. auto.
      * intros (_ & [= ->] & Hsm). destruct a as [v' sm]. simpl in *. subst. reflexivity.
    + split; [discriminate|]. intros (_ & H & _). discriminate.
Qed.

Lemma backend_init (b : backend) (kwargs : pydict value) :
  cls_init (backend_class b) kwargs
  = (a <-- bind_init (cls_name (backend_class b) +:+ ".__init__") (identity_field b) kwargs ;;
     ret [("show_message", snd a); (identity_field b, fst a)]).
Proof. destruct b; reflexivity. Qed.

Lemma py_call_backend_iff (b : backend) (kwargs : pydict value) (p : PyObject) :
  py_call (backend_class b) kwargs = inr p
  <-> Forall (fun kv => init_keyword (identity_field b) (fst kv)) kwargs
      /\ exists v, dict_get (identity_field b) kwargs = Some v
                   /\ p = backend_instance b v (show_message_of kwargs).
Proof.
  unfold py_call. rewrite backend_init.
  destruct (bind_init _ (identity_field b) kwargs) as [e|a] eqn:E; simpl.
  - split; [discriminate|]. intros (Hall & v & Hv & _). exfalso.
    assert (H : bind_init (cls_name (backend_class b) +:+ ".__init__")
                  (identity_field b) kwargs = inr (v, show_message_of kwargs)).
    { apply bind_init_inr. auto. }
    congruence.
  - apply bind_init_inr in E as (Hall & Hv & Hsm). split.
    + intros [= <-]. split; [exact Hall|]. exists (fst a). split; [exact Hv|].
      unfold backend_instance. rewrite Hsm. reflexivity.
    + intros (_ & v & Hv' & ->). unfold backend_instance, ret.
      rewrite Hv in Hv'. injection Hv' as <-. rewrite Hsm. reflexivity.
Qed.

(** X1.  A call of one of the four pusher classes succeeds exactly when
    every keyword is the identity field or [show_message] and the identity
    field is among them; the instance then holds the identity value as given
    and the [show_message] given, [True] by default. *)
Theorem pusher_construct_iff (b : backend) (kwargs : pydict value) (p : PyObject) :
  py_call (backend_class b) kwargs = inr p
  <-> Forall (fun kv => init_keyword (identity_field b) (fst kv)) kwargs
      /\ exists v, dict_get (identity_field b) kwargs = Some v
                   /\ p = backend_instance b v (show_message_of kwargs).
Proof. apply py_call_backend_iff. Qed.

Lemma find_first {A : Type} (f : A -> bool) (before after : list A) (x : A) :
  Forall (fun y => f y = false) before -> f x = true ->
  find f (before ++ x :: after) = Some x.
Proof.
  intros Hb Hx. induction before as [|y before IH]; simpl.
  - rewrite Hx. reflexivity.
  - apply Forall_cons in Hb as [Hy Hb]. rewrite Hy. apply IH, Hb.
Qed.

(** X2.  How a call of one of the four pusher classes fails.  With only
    known keywords and no identity field, it raises the [TypeError] of the
    missing argument.  Otherwise the first keyword that is neither the
    identity field nor [show_message] decides: it raises the [TypeError] of
    an unexpected keyword naming it (of a second value for [self], when the
    keyword is [self]). *)
Theorem pusher_construct_errors (b : backend) (kwargs : pydict value) :
  let init := cls_name (backend_class b) +:+ ".__init__" in
  (Forall (fun kv => init_keyword (identity_field b) (fst kv)) kwargs ->
   dict_get (identity_field b) kwargs = None ->
   py_call (backend_class b) kwargs
   = raise TypeError
       (init +:+ "() missing 1 required positional argument: '"
             +:+ identity_field b +:+ "'"))
  /\ (forall before k w after,
        kwargs = before ++ (k, w) :: after ->
        Forall (fun kv => init_keyword (identity_field b) (fst kv)) before ->
        ~ init_keyword (identity_field b) k ->
        py_call (backend_class b) kwargs
        = raise TypeError
            (if String.eqb k "self"
             then init +:+ "() got multiple values for argument 'self'"
             else init +:+ "() got an unexpected keyword argument '" +:+ k +:+ "'")).
Proof.
  intros init. split.
  - intros Hall Hnone. unfold py_call. rewrite backend_init. fold init.
    unfold bind_init.
    assert (Hf : find (fun kv : string * value =>
               negb (String.eqb (fst kv) (identity_field b)
                     || String.eqb (fst kv) "show_message")) kwargs = None).
    { apply find_none_Forall. eapply Forall_impl; [exact Hall|].
      intros kv Hkv. apply init_keyword_test, Hkv. }
    rewrite Hf, Hnone. reflexivity.
  - intros before k w after -> Hbefore Hk. unfold py_call. rewrite backend_init.
    fold init. unfold bind_init.
    rewrite (find_first _ before after (k, w)).
    + destruct (String.eqb k "self"); reflexivity.
    + eapply Forall_impl; [exact Hbefore|]. intros kv Hkv. apply init_keyword_test, Hkv.
    + simpl. destruct (negb _) eqn:E; [reflexivity|].
      exfalso. apply Hk, init_keyword_test, E.
Qed.

Lemma pusher_construct_errors_witness :
  py_call Wechat [] 
  = raise TypeError "Wechat.__init__() missing 1 required positional argument: 'sckey'"
  /\ py_call Wechat [("sckey", VStr "k"); ("colour", VStr "red"); ("x", VStr "y")]
     = raise TypeError "Wechat.__init__() got an unexpected keyword argument 'colour'".
Proof.
  split.
  - exact (proj1 (pusher_construct_errors BWechat []) (List.Forall_nil _) eq_refl).
  - apply (proj2 (pusher_construct_errors BWechat
                    [("sckey", VStr "k"); ("colour", VStr "red"); ("x", VStr "y")])
             [("sckey", VStr "k")] "colour" (VStr "red") [("x", VStr "y")] eq_refl).
    + repeat constructor.
    + intros [H|H]; discriminate H.
Defined.

(** ** Pushing, continued *)

Lemma format_Wechat__api (sckey : string) :
  format Wechat__api "sckey" sckey = "http://sc.ftqq.com/" +:+ sckey +:+ ".send".
Proof. vm_compute. reflexivity. Qed.

Section PushMore.

Variables Response SendResult : Type.
Variable session_post : value -> pydict value -> Response.
Variable session_get : value -> pydict value -> Response.
Variable _check_result : Response -> result SendResult.

(** X3.  [Webhook._push] posts to the instance's [url], as JSON, the extra
    fields as given, with [content] set to the message only when the extras
    have no [content]: every extra field is sent with its own value, and no
    other field is added. *)
Theorem Webhook_push_request (self : PyObject) (url message : value)
    (kwargs : pydict value) :
  getattr self "url" = inr url ->
  exists body,
    Webhook__push session_post _check_result self message kwargs
    = _check_result (session_post url body)
    /\ (forall k, dict_get k body
                  = match dict_get k kwargs with
                    | Some w => Some w
                    | None => if String.eqb "content" k then Some message else None
                    end)
    /\ (is_Some (dict_get "content" kwargs) -> body = kwargs)
    /\ (dict_get "content" kwargs = None -> body = kwargs ++ [("content", message)]).
Proof.
  intros Hurl. exists (dict_setdefault "content" message kwargs). repeat split.
  - unfold Webhook__push. rewrite Hurl. reflexivity.
  - intros k. apply dict_get_setdefault.
  - intros [w Hw]. unfold dict_setdefault. rewrite Hw. reflexivity.
  - intros Hnone. unfold dict_setdefault. rewrite Hnone. clear - Hnone.
    induction kwargs as [|[k' v'] d IH]; simpl in *; [reflexivity|].
    destruct (String.eqb k' "content"); [discriminate|]. rewrite (IH Hnone). reflexivity.
Qed.

(** X4.  [Wechat._push] sends a GET request to the endpoint template with
    the key substituted, whose only parameter is [text], the message: the
    extra fields of the call are not sent at all. *)
Theorem Wechat_push_request (self : PyObject) (sckey message : value)
    (kwargs : pydict value) :
  getattr self "sckey" = inr sckey ->
  Wechat__push session_get _check_result self message kwargs
  = _check_result
      (session_get (VStr ("http://sc.ftqq.com/" +:+ py_str sckey +:+ ".send"))
                   [("text", message)])
  /\ (forall kwargs',
        Wechat__push session_get _check_result self message kwargs'
        = Wechat__push session_get _check_result self message kwargs).
Proof.
  intros Hkey. split; [|reflexivity].
  unfold Wechat__push. rewrite Hkey. simpl bind. rewrite format_Wechat__api. reflexivity.
Qed.

End PushMore.

Lemma Webhook_push_request_witness :
  exists body,
    Webhook__push echo inr (backend_instance BWebhook (VStr "http://a.b/hook") (VBool true))
      (VStr "hello") [("username", VStr "bot")]
    = inr (VStr "http://a.b/hook", body)
    /\ body = [("username", VStr "bot"); ("content", VStr "hello")].
Proof.
  destruct (Webhook_push_request _ _ echo inr
              (backend_instance BWebhook (VStr "http://a.b/hook") (VBool true))
              (VStr "http://a.b/hook") (VStr "hello") [("username", VStr "bot")] eq_refl)
    as (body & H1 & _ & _ & H4).
  exists body. split; [exact H1 | exact (H4 eq_refl)].
Defined.

Lemma Wechat_push_request_witness :
  Wechat__push echo inr (backend_instance BWechat (VStr "KEY") (VBool true))
    (VStr "hello") [("desp", VStr "ignored")]
  = inr (VStr "http://sc.ftqq.com/KEY.send", [("text", VStr "hello")]).
Proof.
  exact (proj1 (Wechat_push_request _ _ echo inr
                  (backend_instance BWechat (VStr "KEY") (VBool true))
                  (VStr "KEY") (VStr "hello") [("desp", VStr "ignored")] eq_refl)).
Defined.

(** ** The registry, continued *)

Lemma register_pusher_inr reg a reg' :
  register_pusher reg a = inr reg' ->
  accepted a = true /\ reg' = <[get_cls_name (arg_class a) := arg_class a]> reg.
Proof.
  rewrite register_pusher_spec. destruct (accepted a); [|discriminate].
  intros [= <-]. auto.
Qed.


(** X5.  A successful registration changes the registry at one name only,
    the lowercase name of the class registered, and removes nothing;
    [get_pusher] gives the same result as before on every URI that does not
    name that class. *)
Theorem register_pusher_frame (chk : Stdlib)
    (reg : gmap string PyClass) (a : PyArg) (reg' : gmap string PyClass) :
  register_pusher reg a = inr reg' ->
  (forall name, name <> get_cls_name (arg_class a) -> reg' !! name = reg !! name)
  /\ (forall name, is_Some (reg !! name) -> is_Some (reg' !! name))
  /\ (forall uri,
        (forall r, urlparse chk uri = inr r -> scheme r = "knotify" ->
                   str_lower chk (netloc r) <> get_cls_name (arg_class a)) ->
        get_pusher chk reg' uri = get_pusher chk reg uri).
Proof.
  intros H. apply register_pusher_inr in H as [_ ->]. repeat split.
  - intros name Hne. apply lookup_insert_ne. congruence.
  - intros name Hs.
    destruct (decide (get_cls_name (arg_class a) = name)) as [<-|Hne].
    + rewrite lookup_insert_eq. eauto.
    + rewrite lookup_insert_ne by exact Hne. exact Hs.
  - intros uri Hother. rewrite !get_pusher_unfold.
    destruct (urlparse chk uri) as [e|r]; [reflexivity|].
    destruct (String.eqb (scheme r) "knotify") eqn:Es; [|reflexivity].
    apply String.eqb_eq in Es. simpl.
    rewrite lookup_insert_ne; [reflexivity|].
    intros Heq. exact (Hother r eq_refl Es (eq_sym Heq)).
Qed.

Lemma register_pusher_frame_witness :
  exists reg',
    register_pusher all_pushers (AClass Telegram_upper) = inr reg'
    /\ reg' !! "webhook" = Some Webhook
    /\ get_pusher accept_bracketed_host reg' "knotify://wechat?sckey=K"
       = get_pusher accept_bracketed_host all_pushers "knotify://wechat?sckey=K".
Proof.
  exists (<["telegram" := Telegram_upper]> all_pushers).
  destruct (register_pusher_frame accept_bracketed_host all_pushers
              (AClass Telegram_upper) (<["telegram" := Telegram_upper]> all_pushers)
              eq_refl) as (H1 & _ & H3).
  split; [reflexivity|]. split.
  - rewrite (H1 "webhook"); [reflexivity | discriminate].
  - apply H3. intros r [= <-] _. discriminate.
Defined.

(** X6.  Registrations under different names commute: two accepted
    arguments whose classes have different lowercase names give the same
    registry in either order. *)
Theorem register_pusher_commute (reg : gmap string PyClass) (a b : PyArg) :
  accepted a = true -> accepted b = true ->
  get_cls_name (arg_class a) <> get_cls_name (arg_class b) ->
  register_both reg a b = register_both reg b a.
Proof.
  intros Ha Hb Hne. unfold register_both.
  rewrite (register_pusher_accepted reg a Ha), (register_pusher_accepted reg b Hb).
  simpl. rewrite (register_pusher_accepted _ b Hb), (register_pusher_accepted _ a Ha).
  f_equal. apply insert_insert_ne. congruence.
Qed.

Lemma register_pusher_commute_witness :
  register_both all_pushers (AClass object_class)
    (AInstance (backend_instance BWechat (VStr "k") (VBool true)))
  = register_both all_pushers
      (AInstance (backend_instance BWechat (VStr "k") (VBool true)))
      (AClass object_class).
Proof.
  apply register_pusher_commute; [reflexivity | reflexivity | discriminate].
Defined.

(** X7.  Registering the same argument twice is the same as registering it
    once, error included; and registering a class that the registry already
    holds under its name leaves the registry as it is. *)
Theorem register_pusher_idempotent (reg : gmap string PyClass) (a : PyArg) :
  register_both reg a a = register_pusher reg a
  /\ (accepted a = true ->
      reg !! get_cls_name (arg_class a) = Some (arg_class a) ->
      register_pusher reg a = inr reg).
Proof.
  split.
  - unfold register_both. rewrite !register_pusher_spec.
    destruct (accepted a) eqn:Ha; simpl; [|reflexivity].
    rewrite register_pusher_spec, Ha. f_equal. apply insert_insert_eq.
  - intros Ha Hl. rewrite (register_pusher_accepted reg a Ha). f_equal.
    apply insert_id, Hl.
Qed.

Lemma register_pusher_idempotent_witness :
  register_pusher all_pushers (AClass WirePusher) = inr all_pushers.
Proof.
  exact (proj2 (register_pusher_idempotent all_pushers (AClass WirePusher))
           eq_refl eq_refl).
Defined.



(** ** Decoding, continued *)

Lemma break_at_none p (s : string) :
  str_all (fun c => negb (p c)) s = true -> break_at p s = (s, EmptyString).
Proof.
  induction s as [|a s IH]; simpl; [reflexivity|].
  intros H. apply andb_prop in H as [Ha Hs]. apply negb_true_iff in Ha.
  rewrite Ha, (IH Hs). reflexivity.
Qed.

Lemma urlparse_canonical_no_query (chk : Stdlib) (sch host : string) :
  scheme_shaped sch = true ->
  str_all host_char host = true ->
  str_all is_ascii host = true ->
  urlparse chk (sch +:+ "://" +:+ host)
  = inr {| scheme := lower sch; netloc := host; path := EmptyString;
           params := EmptyString; query := EmptyString; fragment := EmptyString |}.
Proof.
  intros Hs Hh Ha. unfold urlparse, urlsplit.
  assert (Hl : forall rest, lstrip c0_control_or_space (sch +:+ rest) = sch +:+ rest).
  { intros rest. destruct sch as [|c0 pre]; [discriminate|]. simpl.
    unfold scheme_shaped in Hs. apply andb_prop in Hs as [Hc0 _].
    rewrite (alpha_not_c0 _ Hc0). reflexivity. }
  rewrite Hl, str_filter_app.
  rewrite (str_filter_all _ sch).
  2:{ destruct sch as [|c0 pre]; [discriminate|].
      unfold scheme_shaped in Hs. apply andb_prop in Hs as [_ Hall].
      eapply str_all_impl; [apply scheme_char_safe | exact Hall]. }
  change ("://" +:+ host) with (String ":" (String "/" (String "/" host))).
  change (str_filter (fun c => negb (unsafe_url_byte c))
            (String ":" (String "/" (String "/" host))))
    with (String ":" (String "/" (String "/"
            (str_filter (fun c => negb (unsafe_url_byte c)) host)))).
  rewrite (str_filter_all _ host)
    by (eapply str_all_impl; [apply host_char_safe | exact Hh]).
  rewrite (split_scheme_shaped _ _ Hs).
  unfold split_netloc, _splitnetloc.
  rewrite prefix_slashes. cbn [str_drop].
  rewrite break_at_none
    by (eapply str_all_impl; [apply host_char_not_delim | exact Hh]).
  rewrite (str_mem_absent "[" host)
    by (eapply str_all_impl; [apply host_char_not_lb | exact Hh]).
  rewrite (str_mem_absent "]" host)
    by (eapply str_all_impl; [apply host_char_not_rb | exact Hh]).
  cbn [andb orb negb bind ret]. rewrite (_checknetloc_ascii chk host Ha).
  cbn [andb orb negb bind ret raise split_fragment_query partition
       split_scheme_of split_path split_netloc_of split_query split_fragment str_mem].
  rewrite andb_false_r. reflexivity.
Qed.

(** X9.  A URI written [scheme://name?query], in any letter-casing of
    [knotify] and with an ASCII name that is any letter-casing of a
    registered name, is decoded by calling the class registered under the
    lower-cased name with the pairs of the query as string keyword
    arguments, the exception of the call wrapped; written without a query,
    the class is called with no argument at all. *)
Theorem get_pusher_canonical (chk : Stdlib)
    (reg : gmap string PyClass) (sch host q : string) (cls : PyClass) :
  lower sch = "knotify" ->
  str_all host_char host = true ->
  str_all is_ascii host = true ->
  str_all query_char q = true ->
  reg !! lower host = Some cls ->
  get_pusher chk reg (sch +:+ "://" +:+ host +:+ "?" +:+ q)
  = wrap_constructor (py_call cls (dict_map VStr (dict (parse_qsl q))))
  /\ get_pusher chk reg (sch +:+ "://" +:+ host) = wrap_constructor (py_call cls []).
Proof.
  intros Hsch Hh Ha Hq Hreg.
  assert (Hshape : scheme_shaped sch = true).
  { rewrite <- scheme_shaped_lower, Hsch. reflexivity. }
  assert (Hreg' : reg !! str_lower chk host = Some cls).
  { unfold str_lower. rewrite Ha. exact Hreg. }
  split.
  - apply (get_pusher_found chk reg _ _ cls
             (urlparse_canonical chk sch host q Hshape Hh Ha Hq));
      [exact Hsch | exact Hreg'].
  - apply (get_pusher_found chk reg _ _ cls
             (urlparse_canonical_no_query chk sch host Hshape Hh Ha));
      [exact Hsch | exact Hreg'].
Qed.

Lemma get_pusher_canonical_witness :
  get_pusher accept_bracketed_host all_pushers "KNOTIFY://WeChat?sckey=a%20b&show_message=0"
  = inr (backend_instance BWechat (VStr "a b") (VStr "0"))
  /\ get_pusher accept_bracketed_host all_pushers "KNOTIFY://WeChat"
     = inl (Exc KnotifyException
              (ArgExn (Exc TypeError
                 (ArgStr "Wechat.__init__() missing 1 required positional argument: 'sckey'")))).
Proof.
  exact (get_pusher_canonical accept_bracketed_host all_pushers "KNOTIFY" "WeChat"
           "sckey=a%20b&show_message=0" Wechat eq_refl eq_refl eq_refl eq_refl eq_refl).
Defined.

(** *** Blank parameters *)

Lemma split_app c (a b : string) :
  split c (a +:+ String c b) = split c a ++ split c b.
Proof.
  induction a as [|x a IH]; simpl.
  - rewrite Ascii.eqb_refl. reflexivity.
  - destruct (Ascii.eqb x c); [rewrite IH; reflexivity|].
    rewrite IH. destruct (split_not_nil c a) as [h [t ->]]. reflexivity.
Qed.

Lemma parse_qsl_app (a b : string) :
  parse_qsl (a +:+ "&" +:+ b) = parse_qsl a ++ parse_qsl b.
Proof.
  rewrite !parse_qsl_split.
  change ("&" +:+ b) with (String "&" b).
  rewrite split_app. apply flat_map_app.
Qed.

Lemma field_char_parts c :
  field_char c = true ->
  query_char c = true /\ differs "&" c = true /\ differs "=" c = true.
Proof.
  unfold field_char. intros H.
  apply andb_prop in H as [H H3]. apply andb_prop in H as [H1 H2]. auto.
Qed.

(** A field without a value, [k=] or [k], gives no pair. *)
Lemma parse_qsl_blank (k : string) :
  str_all field_char k = true ->
  parse_qsl (k +:+ "=") = [] /\ parse_qsl k = [].
Proof.
  intros Hk.
  assert (Hamp : str_all (differs "&") k = true)
    by (eapply str_all_impl; [apply field_char_parts | exact Hk]).
  assert (Heq : str_all (differs "=") k = true)
    by (eapply str_all_impl; [apply field_char_parts | exact Hk]).
  split.
  - rewrite parse_qsl_split, split_absent.
    2:{ rewrite str_all_app, Hamp. reflexivity. }
    cbn [flat_map]. unfold parse_field.
    change (k +:+ "=") with (k +:+ String "=" EmptyString).
    rewrite (partition_first "=" k EmptyString Heq).
    destruct (negb _); reflexivity.
  - rewrite parse_qsl_split, (split_absent "&" k Hamp).
    cbn [flat_map]. unfold parse_field. rewrite (partition_absent "=" k Heq).
    destruct (negb _); reflexivity.
Qed.

(** X10.  A query parameter with a blank value, or with no [=] at all, is
    ignored: appending [&k=] or [&k] to the query of a URI does not change
    what [get_pusher] does with it. *)
Theorem get_pusher_blank_parameter (chk : Stdlib)
    (reg : gmap string PyClass) (sch host q k : string) :
  scheme_shaped sch = true ->
  str_all host_char host = true ->
  str_all query_char q = true ->
  str_all field_char k = true ->
  get_pusher chk reg (sch +:+ "://" +:+ host +:+ "?" +:+ q +:+ "&" +:+ k +:+ "=")
  = get_pusher chk reg (sch +:+ "://" +:+ host +:+ "?" +:+ q)
  /\ get_pusher chk reg (sch +:+ "://" +:+ host +:+ "?" +:+ q +:+ "&" +:+ k)
     = get_pusher chk reg (sch +:+ "://" +:+ host +:+ "?" +:+ q).
Proof.
  intros Hs Hh Hq Hk.
  assert (Hkq : str_all query_char k = true)
    by (eapply str_all_impl; [apply field_char_parts | exact Hk]).
  assert (Hq1 : str_all query_char (q +:+ "&" +:+ k +:+ "=") = true).
  { rewrite str_all_app, Hq. change ("&" +:+ k +:+ "=") with (String "&" (k +:+ "=")).
    cbn [str_all]. rewrite str_all_app, Hkq. reflexivity. }
  assert (Hq2 : str_all query_char (q +:+ "&" +:+ k) = true).
  { rewrite str_all_app, Hq. change ("&" +:+ k) with (String "&" k).
    cbn [str_all]. rewrite Hkq. reflexivity. }
  destruct (parse_qsl_blank k Hk) as [Hb1 Hb2].
  rewrite !get_pusher_unfold.
  rewrite (urlparse_canonical_checked chk sch host _ Hs Hh Hq1).
  rewrite (urlparse_canonical_checked chk sch host _ Hs Hh Hq2).
  rewrite (urlparse_canonical_checked chk sch host _ Hs Hh Hq).
  destruct (_checknetloc chk host) as [e|[]]; [split; reflexivity|].
  cbn [bind ret scheme netloc query].
  rewrite !parse_qsl_app, Hb1, Hb2, app_nil_r. split; reflexivity.
Qed.

Lemma get_pusher_blank_parameter_witness :
  get_pusher accept_bracketed_host all_pushers "knotify://webhook?url=a&show_message="
  = get_pusher accept_bracketed_host all_pushers "knotify://webhook?url=a".
Proof.
  exact (proj1 (get_pusher_blank_parameter accept_bracketed_host all_pushers
                  "knotify" "webhook" "url=a" "show_message"
                  eq_refl eq_refl eq_refl eq_refl)).
Defined.

(** *** What a decoded pusher holds *)

Lemma unquote_item_nonempty (item : string) : nonempty (unquote_item item) = true.
Proof.
  unfold unquote_item. destruct (_hextobyte item); [|reflexivity].
  destruct item as [|c1 [|c2 rest]]; reflexivity.
Qed.

Lemma unquote_nonempty (s : string) : nonempty s = true -> nonempty (unquote s) = true.
Proof.
  destruct s as [|c s]; [discriminate|]. intros _.
  destruct (Ascii.eqb c "%") eqn:E.
  - apply Ascii.eqb_eq in E. subst c. unfold unquote. simpl split.
    destruct (split_not_nil "%" s) as [h [t ->]]. simpl.
    apply nonempty_app_l, unquote_item_nonempty.
  - rewrite (unquote_plain c s E). reflexivity.
Qed.

Lemma nonempty_true (s : string) : nonempty s = true <-> s <> EmptyString.
Proof. destruct s; simpl; split; congruence. Qed.

(** Every value [parse_qsl] returns is a non-empty string. *)
Lemma parse_qsl_values (qs : string) :
  Forall (fun kv => snd kv <> EmptyString) (parse_qsl qs).
Proof.
  rewrite parse_qsl_split. induction (split "&" qs) as [|f l IH]; simpl; [constructor|].
  apply Forall_app. split; [|exact IH].
  unfold parse_field. destruct (negb _); [constructor|].
  destruct (partition "=" f) as [[n v]|]; [|constructor].
  destruct (nonempty v) eqn:Ev; [|constructor].
  repeat constructor. simpl. apply nonempty_true, unquote_nonempty.
  unfold replace_char. rewrite nonempty_map. exact Ev.
Qed.

Lemma last_value_In {V : Type} (k : string) (l : list (string * V)) (v : V) :
  last_value k l = Some v -> In (k, v) l.
Proof.
  induction l as [|[k' v'] l IH]; simpl; [discriminate|].
  destruct (last_value k l) as [w|].
  - intros [= ->]. right. apply IH. reflexivity.
  - destruct (String.eqb k' k) eqn:E; [|discriminate].
    apply String.eqb_eq in E. intros [= ->]. left. congruence.
Qed.

Lemma dict_get_dict_map {V W : Type} (f : V -> W) (k : string) (d : pydict V) :
  dict_get k (dict_map f d) = option_map f (dict_get k d).
Proof.
  induction d as [|[k' v'] d IH]; simpl; [reflexivity|].
  destruct (String.eqb k' k); [reflexivity | exact IH].
Qed.

(** The keyword arguments [get_pusher] passes are non-empty strings. *)
Lemma decoded_kwargs_get (qs k : string) (w : value) :
  dict_get k (dict_map VStr (dict (parse_qsl qs))) = Some w ->
  exists s, w = VStr s /\ s <> EmptyString.
Proof.
  rewrite dict_get_dict_map, dict_get_dict.
  destruct (last_value k (parse_qsl qs)) as [s|] eqn:E; [|discriminate].
  intros [= <-]. exists s. split; [reflexivity|].
  apply last_value_In in E.
  pose proof (parse_qsl_values qs) as Hall.
  rewrite Forall_forall in Hall. apply list_elem_of_In in E. exact (Hall _ E).
Qed.

Section Decoded.

Variable chk : Stdlib.

Lemma get_pusher_inr reg uri p :
  get_pusher chk reg uri = inr p ->
  exists r, urlparse chk uri = inr r
            /\ py_call (ob_type p) (dict_map VStr (dict (parse_qsl (query r)))) = inr p.
Proof.
  rewrite get_pusher_unfold.
  destruct (urlparse chk uri) as [e|r]; [discriminate|].
  destruct (negb _); [discriminate|].
  destruct (reg !! str_lower chk (netloc r)) as [cls|]; [|discriminate].
  destruct (py_call cls _) as [e|p'] eqn:E; [discriminate|].
  intros [= <-]. exists r. split; [reflexivity|].
  rewrite (py_call_type _ _ _ E). exact E.
Qed.

Lemma decoded_instance (reg : gmap string PyClass) (uri : string)
    (p : PyObject) (b : backend) :
  get_pusher chk reg uri = inr p ->
  ob_type p = backend_class b ->
  exists v flag,
    p = backend_instance b (VStr v) flag
    /\ v <> EmptyString
    /\ (flag = VBool true \/ exists s, flag = VStr s /\ s <> EmptyString).
Proof.
  intros Hget Htype.
  destruct (get_pusher_inr reg uri p Hget) as (r & _ & Hcall).
  rewrite Htype in Hcall.
  apply py_call_backend_iff in Hcall as (_ & w & Hw & ->).
  destruct (decoded_kwargs_get _ _ _ Hw) as (v & -> & Hv).
  exists v, (show_message_of (dict_map VStr (dict (parse_qsl (query r))))).
  split; [reflexivity|]. split; [exact Hv|].
  unfold show_message_of.
  destruct (dict_get "show_message" _) as [x|] eqn:Ex; [|auto].
  right. apply (decoded_kwargs_get _ _ _ Ex).
Qed.

(** X11.  An instance of one of the four pusher classes that [get_pusher]
    returns, from whatever registry and URI, holds a non-empty string as
    its identity field, and as [show_message] either the default [True] or a
    non-empty string: a URI cannot give a pusher an empty identity, nor a
    false [show_message]. *)
Theorem get_pusher_instance (reg : gmap string PyClass) (uri : string)
    (p : PyObject) (b : backend) :
  get_pusher chk reg uri = inr p ->
  ob_type p = backend_class b ->
  exists v flag,
    p = backend_instance b (VStr v) flag
    /\ v <> EmptyString
    /\ (flag = VBool true \/ exists s, flag = VStr s /\ s <> EmptyString).
Proof. apply decoded_instance. Qed.

(** X12.  Encoding a decoded pusher and decoding again is stable: for an
    instance [p] of one of the four classes that [get_pusher] returned, the
    [uri] of [p] is defined, and [get_pusher] on it returns the instance
    with the identity field of [p] and [show_message] back at its default
    [True].  (The class must still be registered under its name; the
    scheme of generated URIs may be any letter-casing of [knotify].) *)
Theorem decode_encode_decode (uri_scheme : string) (reg : gmap string PyClass)
    (uri : string) (p : PyObject) (b : backend) :
  lower uri_scheme = "knotify" ->
  reg !! get_cls_name (backend_class b) = Some (backend_class b) ->
  get_pusher chk reg uri = inr p ->
  ob_type p = backend_class b ->
  exists v flag u,
    p = backend_instance b (VStr v) flag
    /\ backend_uri uri_scheme b p = inr u
    /\ get_pusher chk reg u = inr (backend_instance b (VStr v) (VBool true)).
Proof.
  intros Hsch Hreg Hget Htype.
  destruct (decoded_instance reg uri p b Hget Htype) as (v & flag & -> & Hv & _).
  exists v, flag,
    (_format_uri uri_scheme (backend_instance b (VStr v) flag)
       [(identity_field b, VStr v)]).
  split; [reflexivity|]. split; [destruct b; reflexivity|].
  rewrite (get_pusher_format_uri chk uri_scheme Hsch reg _ _ v Hv).
  - destruct b; reflexivity.
  - destruct b; reflexivity.
  - destruct b; reflexivity.
  - exact Hreg.
Qed.

End Decoded.

Lemma get_pusher_instance_witness :
  exists v flag,
    backend_instance BWebhook (VStr "b") (VStr "False")
    = backend_instance BWebhook (VStr v) flag
    /\ v <> EmptyString
    /\ (flag = VBool true \/ exists s, flag = VStr s /\ s <> EmptyString).
Proof.
  exact (get_pusher_instance accept_bracketed_host all_pushers
           "knotify://WebHook?url=a&url=b&show_message=False"
           (backend_instance BWebhook (VStr "b") (VStr "False")) BWebhook
           eq_refl eq_refl).
Defined.

Lemma decode_encode_decode_witness :
  exists v flag u,
    backend_instance BWebhook (VStr "b c") (VStr "False")
    = backend_instance BWebhook (VStr v) flag
    /\ backend_uri "Knotify" BWebhook
         (backend_instance BWebhook (VStr "b c") (VStr "False")) = inr u
    /\ get_pusher accept_bracketed_host all_pushers u
       = inr (backend_instance BWebhook (VStr v) (VBool true)).
Proof.
  exact (decode_encode_decode accept_bracketed_host "Knotify" all_pushers
           "knotify://WebHook?url=b+c&show_message=False"
           (backend_instance BWebhook (VStr "b c") (VStr "False")) BWebhook
           eq_refl eq_refl eq_refl eq_refl).
Defined.

(** ** From a URI to the request *)

Section DecodeAndPush.

Variable chk : Stdlib.
Variables Response SendResult : Type.
Variable session_post : value -> pydict value -> Response.
Variable session_get : value -> pydict value -> Response.
Variable _check_result : Response -> result SendResult.

(** X13.  Decoding and pushing compose: the URI
    [scheme://name?field=value] of one of the four pushers, its value
    written by [quote_plus], decodes to a pusher whose pushes go, by the
    method of its class, to the address made of the unquoted value: the
    value itself for [Webhook], the endpoint template with the value
    substituted for [Telegram] and [Wechat], the fixed endpoint for
    [WirePusher].  No push of such a pusher raises before the request is
    sent. *)
Theorem decoded_pusher_push (uri_scheme : string) (reg : gmap string PyClass)
    (b : backend) (v : string) (message : value) (kwargs : pydict value) :
  lower uri_scheme = "knotify" ->
  reg !! get_cls_name (backend_class b) = Some (backend_class b) ->
  v <> EmptyString ->
  exists p body,
    get_pusher chk reg
      (uri_scheme +:+ "://" +:+ get_cls_name (backend_class b) +:+ "?"
                  +:+ identity_field b +:+ "=" +:+ quote_plus v) = inr p
    /\ backend_push session_post session_get _check_result b p message kwargs
       = _check_result
           (backend_send session_post session_get b (backend_endpoint b v) body).
Proof.
  intros Hsch Hreg Hv.
  set (p := backend_instance b (VStr v) (VBool true)).
  assert (Hget : get_pusher chk reg
            (uri_scheme +:+ "://" +:+ get_cls_name (backend_class b) +:+ "?"
                        +:+ identity_field b +:+ "=" +:+ quote_plus v) = inr p).
  { transitivity (get_pusher chk reg
                    (_format_uri uri_scheme p [(identity_field b, VStr v)])).
    { destruct b; reflexivity. }
    rewrite (get_pusher_format_uri chk uri_scheme Hsch reg p _ v Hv).
    - destruct b; reflexivity.
    - destruct b; reflexivity.
    - destruct b; reflexivity.
    - exact Hreg. }
  exists p. destruct b; simpl backend_push; simpl backend_send; simpl backend_endpoint.
  - exists (dict_setdefault "content" message kwargs). split; [exact Hget | reflexivity].
  - exists (dict_update [("text", message); ("parse_mode", VStr "Markdown")] kwargs).
    split; [exact Hget|].
    unfold Telegram__push. simpl bind. rewrite format_Telegram__api. reflexivity.
  - exists [("text", message)]. split; [exact Hget|].
    unfold Wechat__push. simpl bind. rewrite format_Wechat__api. reflexivity.
  - destruct (WirePusher_build_body (VStr v) message kwargs) as [rejected Hbody].
    exists (List.filter WirePusher_allowed (WirePusher_kwargs (VStr v) message kwargs)).
    split; [exact Hget|].
    unfold WirePusher__push. simpl bind. rewrite Hbody. reflexivity.
Qed.

End DecodeAndPush.

Lemma decoded_pusher_push_witness :
  exists p body,
    get_pusher accept_bracketed_host all_pushers
      "Knotify://webhook?url=http%3A%2F%2Fa.b%2Fhook%3Fk%3D1" = inr p
    /\ Webhook__push echo inr p (VStr "hello") []
       = inr (VStr "http://a.b/hook?k=1", body).
Proof.
  exact (decoded_pusher_push accept_bracketed_host _ _ echo echo inr "Knotify"
           all_pushers BWebhook "http://a.b/hook?k=1" (VStr "hello") []
           eq_refl eq_refl (fun H => match H with end)).
Defined.

(** ** Registering instances *)

(** X14.  Registering an instance cannot put a class that is not a pusher
    into the registry: when every entry is a pusher class before a
    successful registration of an instance, every entry is one after it,
    and whatever [get_pusher] then returns is an instance of a pusher
    class. *)
Theorem register_instance_keeps_pushers (chk : Stdlib)
    (reg : gmap string PyClass) (o : PyObject) (reg' : gmap string PyClass) :
  registry_pushers reg ->
  register_pusher reg (AInstance o) = inr reg' ->
  registry_pushers reg'
  /\ (forall uri p, get_pusher chk reg' uri = inr p -> cls_is_pusher (ob_type p) = true).
Proof.
  intros Hreg H.
  assert (Hreg' : registry_pushers reg').
  { apply register_pusher_inr in H as [Hacc ->]. intros name cls Hl.
    apply lookup_insert_Some in Hl as [[_ <-]|[_ Hl]]; [exact Hacc | eapply Hreg, Hl]. }
  split; [exact Hreg'|].
  intros uri p Hget. rewrite get_pusher_unfold in Hget.
  destruct (urlparse chk uri) as [e|r]; [discriminate|].
  destruct (negb _); [discriminate|].
  destruct (reg' !! str_lower chk (netloc r)) as [cls|] eqn:El; [|discriminate].
  destruct (py_call cls _) as [e|p'] eqn:E; [discriminate|].
  injection Hget as <-. rewrite (py_call_type _ _ _ E). eapply Hreg', El.
Qed.

Lemma register_instance_keeps_pushers_witness :
  cls_is_pusher (ob_type (backend_instance BWebhook (VStr "a") (VBool true))) = true.
Proof.
  exact (proj2 (register_instance_keeps_pushers accept_bracketed_host all_pushers
                  {| ob_type := Telegram_upper; ob_attrs := [] |}
                  (<["telegram" := Telegram_upper]> all_pushers)
                  all_pushers_pushers eq_refl)
           "knotify://telegram?url=a"
           {| ob_type := Telegram_upper;
              ob_attrs := [("show_message", VBool true); ("url", VStr "a")] |}
           eq_refl).
Defined.

(** ** The outcome of the constructor *)


